(** * Car_Rental: the booking engine and the conversation handlers

    A shallow embedding of [db.py], [utils/keyboards.py] and of the
    handlers of [handlers/customer.py] and [handlers/dealer.py] that the
    specification speaks about, followed by the properties of the
    specification, each settled against the embedding.

    Layout: the data model, the effect monad (database connection,
    transaction, chat transport, session store), the operations of
    [db.py], the retry decorator, the keyboards and the handlers; then the
    theorems. *)

From Stdlib Require Import ZArith List Bool String Ascii Lia.
From Stdlib Require Import DecimalString.
From stdpp Require Import gmap strings.
Import ListNotations.

Local Open Scope string_scope.
Local Open Scope Z_scope.

(** ** Data model: the rows of the five tables *)

Record Customer := mkCustomer {
  cu_id : Z;
  cu_telegram_id : Z;
  cu_name : string;
  cu_registration_date : Z }.

Record Dealer := mkDealer {
  d_id : Z;
  d_telegram_id : Z;
  d_name : string }.

Record Car := mkCar {
  c_id : Z;
  c_dealer_id : Z;
  c_make : option string;
  c_model : option string;
  c_year : option Z;
  c_available : bool }.

Record CarImage := mkCarImage {
  i_id : Z;
  i_car_id : Z;
  i_image_url : string;
  i_is_primary : bool }.

Record Booking := mkBooking {
  b_id : Z;
  b_customer_id : Z;
  b_car_id : Z;
  b_start_date : Z;
  b_end_date : option Z;
  b_active : bool;
  b_pending : bool }.

(** Modelled from the spec: the schema (the CREATE TABLE statements) is not
    among the sources.  The tables carry the columns of section 3 of the
    specification, which are the columns the statements of [db.py] name.
    Rows are kept in insertion order; every table has its [id] drawn from
    a sequence ([RETURNING id]); [end_date] is NULL unless a statement sets
    it; the default of [bookings.pending], which no INSERT of [db.py]
    sets, is a field of the database.  No constraint is enforced by the
    tables themselves: [db.py] does its cascades by hand. *)
Record DB := mkDB {
  customers : list Customer;
  dealers : list Dealer;
  cars : list Car;
  car_images : list CarImage;
  bookings : list Booking;
  customers_seq : Z;
  dealers_seq : Z;
  cars_seq : Z;
  car_images_seq : Z;
  bookings_seq : Z;
  pending_default : bool }.

Definition set_customers (v : list Customer) (d : DB) : DB :=
  mkDB v (dealers d) (cars d) (car_images d) (bookings d)
       (customers_seq d) (dealers_seq d) (cars_seq d) (car_images_seq d)
       (bookings_seq d) (pending_default d).

Definition set_dealers (v : list Dealer) (d : DB) : DB :=
  mkDB (customers d) v (cars d) (car_images d) (bookings d)
       (customers_seq d) (dealers_seq d) (cars_seq d) (car_images_seq d)
       (bookings_seq d) (pending_default d).

Definition set_cars (v : list Car) (d : DB) : DB :=
  mkDB (customers d) (dealers d) v (car_images d) (bookings d)
       (customers_seq d) (dealers_seq d) (cars_seq d) (car_images_seq d)
       (bookings_seq d) (pending_default d).

Definition set_car_images (v : list CarImage) (d : DB) : DB :=
  mkDB (customers d) (dealers d) (cars d) v (bookings d)
       (customers_seq d) (dealers_seq d) (cars_seq d) (car_images_seq d)
       (bookings_seq d) (pending_default d).

Definition set_bookings (v : list Booking) (d : DB) : DB :=
  mkDB (customers d) (dealers d) (cars d) (car_images d) v
       (customers_seq d) (dealers_seq d) (cars_seq d) (car_images_seq d)
       (bookings_seq d) (pending_default d).

Definition set_customers_seq (v : Z) (d : DB) : DB :=
  mkDB (customers d) (dealers d) (cars d) (car_images d) (bookings d)
       v (dealers_seq d) (cars_seq d) (car_images_seq d)
       (bookings_seq d) (pending_default d).

Definition set_dealers_seq (v : Z) (d : DB) : DB :=
  mkDB (customers d) (dealers d) (cars d) (car_images d) (bookings d)
       (customers_seq d) v (cars_seq d) (car_images_seq d)
       (bookings_seq d) (pending_default d).

Definition set_cars_seq (v : Z) (d : DB) : DB :=
  mkDB (customers d) (dealers d) (cars d) (car_images d) (bookings d)
       (customers_seq d) (dealers_seq d) v (car_images_seq d)
       (bookings_seq d) (pending_default d).

Definition set_car_images_seq (v : Z) (d : DB) : DB :=
  mkDB (customers d) (dealers d) (cars d) (car_images d) (bookings d)
       (customers_seq d) (dealers_seq d) (cars_seq d) v
       (bookings_seq d) (pending_default d).

Definition set_bookings_seq (v : Z) (d : DB) : DB :=
  mkDB (customers d) (dealers d) (cars d) (car_images d) (bookings d)
       (customers_seq d) (dealers_seq d) (cars_seq d) (car_images_seq d)
       v (pending_default d).

Definition set_available (v : bool) (c : Car) : Car :=
  mkCar (c_id c) (c_dealer_id c) (c_make c) (c_model c) (c_year c) v.

Definition set_pending (v : bool) (b : Booking) : Booking :=
  mkBooking (b_id b) (b_customer_id b) (b_car_id b) (b_start_date b)
            (b_end_date b) (b_active b) v.

Definition close_booking (now : Z) (b : Booking) : Booking :=
  mkBooking (b_id b) (b_customer_id b) (b_car_id b) (b_start_date b)
            (Some now) false (b_pending b).

(** ** Exceptions, events and the world the code runs in *)

(** The exception classes the code distinguishes.  [OperationalError],
    [IntegrityError] and [DataError] are psycopg2 [DatabaseError]s, all of
    them and [InterfaceError] are [psycopg2.Error]s.  [MessageNotModified]
    is the [TelegramAPIError] whose text holds "message is not modified",
    which [send_or_edit_message] singles out. *)
Inductive exn :=
| OperationalError
| InterfaceError
| IntegrityError
| DataError
| TelegramAPIError
| MessageNotModified
| ValueError
| TypeError.

Definition is_psycopg2_Error (e : exn) : bool :=
  match e with
  | OperationalError | InterfaceError | IntegrityError | DataError => true
  | _ => false
  end.

Definition is_IntegrityError (e : exn) : bool :=
  match e with IntegrityError => true | _ => false end.

(** [except (OperationalError, InterfaceError)] of [retry_on_db_error]. *)
Definition is_connection_error (e : exn) : bool :=
  match e with OperationalError | InterfaceError => true | _ => false end.

(** [str(e)], as the f-strings of the failure results print it. *)
Definition exn_text (e : exn) : string :=
  match e with
  | OperationalError => "connection failure"
  | InterfaceError => "interface failure"
  | IntegrityError => "integrity constraint violated"
  | DataError => "invalid data"
  | TelegramAPIError => "telegram api error"
  | MessageNotModified => "message is not modified"
  | ValueError => "invalid literal for int()"
  | TypeError => "exceptions must derive from BaseException"
  end.

Inductive verb := SHOW | SELECT | INSERT | UPDATE | DELETE.
Inductive table :=
  Settings | Customers | Dealers | Cars | CarImages | Bookings.

(** What the outside can observe of a run, in order. *)
Inductive event :=
| EvConnect
| EvExecute (v : verb) (t : table)
| EvCommit
| EvRollback
| EvSleep (seconds : Z)
| EvAnswerCallback
| EvSendMessage
| EvEditMessage
| EvDeleteMessage.

(** The states of [CustomerStates] and [DealerStates]. *)
Inductive fsm_state :=
| selecting_language | viewing_cars
| booking_select_start_date | booking_select_start_time
| booking_select_end_date | booking_select_end_time
| confirming_booking | viewing_booking | confirming_return
| adding_car | adding_car_model | adding_car_year | adding_car_photo
| dealer_viewing_cars | confirming_delete_car | viewing_stats
| refreshing_car_photo.

Inductive value := VInt (z : Z) | VStr (s : string).

(** One conversation's FSM record: the current state and the data dict. *)
Record Session := mkSession {
  s_state : option fsm_state;
  s_data : gmap string value }.

Definition empty_session : Session := mkSession None ∅.

(** The world: the committed database, the working copy of the open
    transaction, the database clock, what the next round trips to the
    database and to the chat API will answer ([None]: the call goes
    through, [Some e]: it raises [e]; an exhausted schedule means no more
    failures), the session store keyed by conversation, and the trace. *)
Record World := mkWorld {
  w_db : DB;
  w_txn : DB;
  w_now : Z;
  w_backend : list (option exn);
  w_transport : list (option exn);
  w_fsm : gmap (Z * Z) Session;
  w_trace : list event }.

Definition set_db (d : DB) (w : World) : World :=
  mkWorld d (w_txn w) (w_now w) (w_backend w) (w_transport w) (w_fsm w)
          (w_trace w).

Definition set_txn (d : DB) (w : World) : World :=
  mkWorld (w_db w) d (w_now w) (w_backend w) (w_transport w) (w_fsm w)
          (w_trace w).

Definition set_now (t : Z) (w : World) : World :=
  mkWorld (w_db w) (w_txn w) t (w_backend w) (w_transport w) (w_fsm w)
          (w_trace w).

Definition set_backend (s : list (option exn)) (w : World) : World :=
  mkWorld (w_db w) (w_txn w) (w_now w) s (w_transport w) (w_fsm w)
          (w_trace w).

Definition set_transport (s : list (option exn)) (w : World) : World :=
  mkWorld (w_db w) (w_txn w) (w_now w) (w_backend w) s (w_fsm w)
          (w_trace w).

Definition set_fsm (m : gmap (Z * Z) Session) (w : World) : World :=
  mkWorld (w_db w) (w_txn w) (w_now w) (w_backend w) (w_transport w) m
          (w_trace w).

Definition log (ev : event) (w : World) : World :=
  mkWorld (w_db w) (w_txn w) (w_now w) (w_backend w) (w_transport w)
          (w_fsm w) (w_trace w ++ [ev]).

(** ** The effect monad: state passing with exceptions *)

Inductive outcome (A : Type) :=
| Ret (a : A)
| Raise (e : exn).
Arguments Ret {A} a.
Arguments Raise {A} e.

Definition M (A : Type) : Type := World -> outcome A * World.

Definition ret {A} (a : A) : M A := fun w => (Ret a, w).

Definition raise {A} (e : exn) : M A := fun w => (Raise e, w).

Definition bind {A B} (m : M A) (k : A -> M B) : M B := fun w =>
  match m w with
  | (Ret a, w1) => k a w1
  | (Raise e, w1) => (Raise e, w1)
  end.

Notation "x <- m ;; k" := (bind m (fun x => k))
  (at level 62, m at next level, right associativity).
Notation "m ;;; k" := (bind m (fun _ => k))
  (at level 62, right associativity).

(** [try: m except Exception as e: h e]. *)
Definition try_except {A} (m : M A) (h : exn -> M A) : M A := fun w =>
  match m w with
  | (Ret a, w1) => (Ret a, w1)
  | (Raise e, w1) => h e w1
  end.

(** One round trip to the database server. *)
Definition backend (ev : event) : M unit := fun w =>
  match w_backend w with
  | Some e :: rest => (Raise e, set_backend rest (log ev w))
  | None :: rest => (Ret tt, set_backend rest (log ev w))
  | [] => (Ret tt, log ev w)
  end.

(** One call of the chat API. *)
Definition transport (ev : event) : M unit := fun w =>
  match w_transport w with
  | Some e :: rest => (Raise e, set_transport rest (log ev w))
  | None :: rest => (Ret tt, set_transport rest (log ev w))
  | [] => (Ret tt, log ev w)
  end.

(** [get_connection]: connect, then read the two encodings; what is raised
    is logged and raised again. *)
Definition get_connection : M unit :=
  backend EvConnect ;;;
  backend (EvExecute SHOW Settings) ;;;
  backend (EvExecute SHOW Settings).

(** [cur.execute(...)]: a round trip, then the statement runs on the
    working copy of the transaction, with the clock for [NOW()]. *)
Definition execute {A} (v : verb) (t : table) (stmt : Z -> DB -> A * DB)
  : M A :=
  backend (EvExecute v t) ;;;
  (fun w => let (a, d) := stmt (w_now w) (w_txn w) in (Ret a, set_txn d w)).

(** [conn.commit()]. *)
Definition commit : M unit :=
  backend EvCommit ;;;
  (fun w => (Ret tt, set_db (w_txn w) w)).

(** [with get_connection() as conn: with conn.cursor() as cur: body]:
    psycopg2 commits the transaction when the block is left normally
    (also by [return]) and rolls it back when an exception leaves it. *)
Definition with_connection {A} (body : M A) : M A := fun w =>
  match get_connection w with
  | (Raise e, w1) => (Raise e, w1)
  | (Ret _, w1) =>
      match body (set_txn (w_db w1) w1) with
      | (Ret a, w2) => (Ret a, set_db (w_txn w2) w2)
      | (Raise e, w2) => (Raise e, log EvRollback w2)
      end
  end.

(** [cur.fetchone()]: the first row of the result, or None. *)
Definition fetchone {A} (rows : list A) : option A := hd_error rows.

(** A statement that only reads. *)
Definition query {A} (q : DB -> A) : Z -> DB -> A * DB :=
  fun _ d => (q d, d).

(** A statement that only writes. *)
Definition update (u : DB -> DB) : Z -> DB -> unit * DB :=
  fun _ d => (tt, u d).

(** ** The statements of [db.py] *)

(** SELECT id FROM bookings WHERE customer_id = %s AND active = true *)
Definition sql_active_bookings_of (customer_id : Z) (d : DB) : list Z :=
  List.map b_id
    (List.filter (fun b => (b_customer_id b =? customer_id) && b_active b)
                 (bookings d)).

(** SELECT available FROM cars WHERE id = %s *)
Definition sql_car_available (car_id : Z) (d : DB) : list bool :=
  List.map c_available (List.filter (fun c => c_id c =? car_id) (cars d)).

(** INSERT INTO bookings (customer_id, car_id, start_date, active)
    VALUES (%s, %s, NOW(), true) RETURNING id *)
Definition sql_insert_booking (customer_id car_id : Z) (now : Z) (d : DB)
  : Z * DB :=
  let id := bookings_seq d in
  (id,
   set_bookings_seq (id + 1)
     (set_bookings
        (bookings d ++
         [mkBooking id customer_id car_id now None true (pending_default d)])
        d)).

(** UPDATE cars SET available = %s WHERE id = %s *)
Definition sql_set_car_available (car_id : Z) (v : bool) (d : DB) : DB :=
  set_cars
    (List.map (fun c => if c_id c =? car_id then set_available v c else c)
              (cars d))
    d.

(** SELECT car_id FROM bookings WHERE id = %s AND active = true *)
Definition sql_car_of_active_booking (booking_id : Z) (d : DB) : list Z :=
  List.map b_car_id
    (List.filter (fun b => (b_id b =? booking_id) && b_active b)
                 (bookings d)).

(** UPDATE bookings SET active = false, end_date = NOW() WHERE id = %s *)
Definition sql_close_booking (booking_id : Z) (now : Z) (d : DB)
  : unit * DB :=
  (tt,
   set_bookings
     (List.map
        (fun b => if b_id b =? booking_id then close_booking now b else b)
        (bookings d))
     d).

(** The failure results of [book_car] and [return_car]. *)
Definition AlreadyBooked : string := "You already have an active booking.".
Definition CarNotFound : string :=
  "This car does not exist in our database.".
Definition CarUnavailable : string :=
  "This car is not available for booking. It may have been recently booked.".
Definition ConstraintViolation : string :=
  "A database constraint was violated. The booking could not be completed.".
Definition BackendFailure : string :=
  "A database error occurred. Please try again later.".
Definition InternalError : string :=
  "An unexpected error occurred. Please contact support.".
Definition BookingNotFound : string :=
  "Booking not found or already completed.".
Definition ReturnBackendFailure : string :=
  "A database error occurred while processing your return. Please try again later.".

(** The pairs [(success, result)] the operations return: the second
    component is an id or a message. *)
Definition result : Type := (bool * (Z + string))%type.

Definition ok_id (id : Z) : result := (true, inl id).
Definition ok_msg (s : string) : result := (true, inr s).
Definition failure (s : string) : result := (false, inr s).

(** ** [book_car] and [return_car] *)

Definition book_car (customer_id car_id : Z) : M result :=
  try_except
    (with_connection
       (rows <- execute SELECT Bookings
                  (query (sql_active_bookings_of customer_id)) ;;
        match fetchone rows with
        | Some _ => ret (failure AlreadyBooked)
        | None =>
            rows <- execute SELECT Cars (query (sql_car_available car_id)) ;;
            match fetchone rows with
            | None => ret (failure CarNotFound)
            | Some false => ret (failure CarUnavailable)
            | Some true =>
                booking_id <- execute INSERT Bookings
                                (sql_insert_booking customer_id car_id) ;;
                execute UPDATE Cars
                  (update (sql_set_car_available car_id false)) ;;;
                commit ;;;
                ret (ok_id booking_id)
            end
        end))
    (fun e =>
       if is_IntegrityError e then ret (failure ConstraintViolation)
       else if is_psycopg2_Error e then ret (failure BackendFailure)
       else ret (failure InternalError)).

Definition return_car (booking_id : Z) : M result :=
  try_except
    (with_connection
       (rows <- execute SELECT Bookings
                  (query (sql_car_of_active_booking booking_id)) ;;
        match fetchone rows with
        | None => ret (failure BookingNotFound)
        | Some car_id =>
            execute UPDATE Bookings (sql_close_booking booking_id) ;;;
            execute UPDATE Cars
              (update (sql_set_car_available car_id true)) ;;;
            commit ;;;
            ret (ok_msg "Car returned successfully.")
        end))
    (fun e =>
       if is_psycopg2_Error e then ret (failure ReturnBackendFailure)
       else ret (failure InternalError)).

(** ** The other statements *)

(** SELECT car_id, active FROM bookings WHERE id = %s *)
Definition sql_booking_car_active (booking_id : Z) (d : DB)
  : list (Z * bool) :=
  List.map (fun b => (b_car_id b, b_active b))
    (List.filter (fun b => b_id b =? booking_id) (bookings d)).

(** DELETE FROM bookings WHERE id = %s *)
Definition sql_delete_booking (booking_id : Z) (d : DB) : DB :=
  set_bookings
    (List.filter (fun b => negb (b_id b =? booking_id)) (bookings d)) d.

(** SELECT id FROM customers WHERE telegram_id = %s *)
Definition sql_customer_ids (telegram_id : Z) (d : DB) : list Z :=
  List.map cu_id
    (List.filter (fun c => cu_telegram_id c =? telegram_id) (customers d)).

(** INSERT INTO customers (telegram_id, name, registration_date)
    VALUES (%s, %s, NOW()) *)
Definition sql_insert_customer (telegram_id : Z) (name : string) (now : Z)
  (d : DB) : unit * DB :=
  let id := customers_seq d in
  (tt,
   set_customers_seq (id + 1)
     (set_customers (customers d ++ [mkCustomer id telegram_id name now]) d)).

(** SELECT id, car_id FROM bookings WHERE id = %s AND pending = true *)
Definition sql_pending_booking (booking_id : Z) (d : DB) : list (Z * Z) :=
  List.map (fun b => (b_id b, b_car_id b))
    (List.filter (fun b => (b_id b =? booking_id) && b_pending b)
                 (bookings d)).

(** UPDATE bookings SET pending = false WHERE id = %s *)
Definition sql_clear_pending (booking_id : Z) (d : DB) : DB :=
  set_bookings
    (List.map
       (fun b => if b_id b =? booking_id then set_pending false b else b)
       (bookings d))
    d.

(** SELECT id FROM dealers WHERE telegram_id = %s *)
Definition sql_dealer_ids_by_telegram (telegram_id : Z) (d : DB) : list Z :=
  List.map d_id
    (List.filter (fun x => d_telegram_id x =? telegram_id) (dealers d)).

(** INSERT INTO dealers (telegram_id, name) VALUES (%s, %s) RETURNING id *)
Definition sql_insert_dealer (telegram_id : Z) (name : string) (now : Z)
  (d : DB) : Z * DB :=
  let id := dealers_seq d in
  (id,
   set_dealers_seq (id + 1)
     (set_dealers (dealers d ++ [mkDealer id telegram_id name]) d)).

(** SELECT id FROM dealers WHERE id = %s *)
Definition sql_dealer_ids (dealer_id : Z) (d : DB) : list Z :=
  List.map d_id (List.filter (fun x => d_id x =? dealer_id) (dealers d)).

(** SELECT id FROM cars WHERE dealer_id = %s *)
Definition sql_car_ids_of_dealer (dealer_id : Z) (d : DB) : list Z :=
  List.map c_id
    (List.filter (fun c => c_dealer_id c =? dealer_id) (cars d)).

Definition mem (x : Z) (l : list Z) : bool := existsb (Z.eqb x) l.

(** DELETE FROM car_images WHERE car_id = ANY(%s) *)
Definition sql_delete_images_of_cars (car_ids : list Z) (d : DB) : DB :=
  set_car_images
    (List.filter (fun i => negb (mem (i_car_id i) car_ids)) (car_images d))
    d.

(** DELETE FROM cars WHERE dealer_id = %s *)
Definition sql_delete_cars_of_dealer (dealer_id : Z) (d : DB) : DB :=
  set_cars
    (List.filter (fun c => negb (c_dealer_id c =? dealer_id)) (cars d)) d.

(** DELETE FROM dealers WHERE id = %s *)
Definition sql_delete_dealer (dealer_id : Z) (d : DB) : DB :=
  set_dealers
    (List.filter (fun x => negb (d_id x =? dealer_id)) (dealers d)) d.

(** INSERT INTO cars (dealer_id, make, model, year, available)
    VALUES (%s, %s, %s, %s, true) RETURNING id *)
Definition sql_insert_car (dealer_id : Z) (make model : option string)
  (year : option Z) (now : Z) (d : DB) : Z * DB :=
  let id := cars_seq d in
  (id,
   set_cars_seq (id + 1)
     (set_cars (cars d ++ [mkCar id dealer_id make model year true]) d)).

(** INSERT INTO car_images (car_id, image_url, is_primary)
    VALUES (%s, %s, %s) RETURNING id *)
Definition sql_insert_image (car_id : Z) (image_url : string)
  (is_primary : bool) (now : Z) (d : DB) : Z * DB :=
  let id := car_images_seq d in
  (id,
   set_car_images_seq (id + 1)
     (set_car_images
        (car_images d ++ [mkCarImage id car_id image_url is_primary]) d)).

(** SELECT id FROM cars WHERE id = %s AND dealer_id = %s *)
Definition sql_car_of_dealer (car_id dealer_id : Z) (d : DB) : list Z :=
  List.map c_id
    (List.filter (fun c => (c_id c =? car_id) && (c_dealer_id c =? dealer_id))
                 (cars d)).

(** SELECT id FROM bookings WHERE car_id = %s AND active = true *)
Definition sql_active_bookings_of_car (car_id : Z) (d : DB) : list Z :=
  List.map b_id
    (List.filter (fun b => (b_car_id b =? car_id) && b_active b)
                 (bookings d)).

(** DELETE FROM car_images WHERE car_id = %s *)
Definition sql_delete_images_of_car (car_id : Z) (d : DB) : DB :=
  set_car_images
    (List.filter (fun i => negb (i_car_id i =? car_id)) (car_images d)) d.

(** DELETE FROM cars WHERE id = %s *)
Definition sql_delete_car (car_id : Z) (d : DB) : DB :=
  set_cars (List.filter (fun c => negb (c_id c =? car_id)) (cars d)) d.

(** SELECT id FROM cars WHERE id = %s *)
Definition sql_car_ids (car_id : Z) (d : DB) : list Z :=
  List.map c_id (List.filter (fun c => c_id c =? car_id) (cars d)).

(** UPDATE car_images SET is_primary = FALSE WHERE car_id = %s *)
Definition sql_clear_primary (car_id : Z) (d : DB) : DB :=
  set_car_images
    (List.map
       (fun i =>
          if i_car_id i =? car_id
          then mkCarImage (i_id i) (i_car_id i) (i_image_url i) false
          else i)
       (car_images d))
    d.

(** SELECT id FROM car_images WHERE car_id = %s AND is_primary = %s *)
Definition sql_image_ids (car_id : Z) (is_primary : bool) (d : DB)
  : list Z :=
  List.map i_id
    (List.filter
       (fun i => (i_car_id i =? car_id) && Bool.eqb (i_is_primary i) is_primary)
       (car_images d)).

(** UPDATE car_images SET image_url = %s, is_primary = %s WHERE id = %s *)
Definition sql_update_image (image_id : Z) (image_url : string)
  (is_primary : bool) (d : DB) : DB :=
  set_car_images
    (List.map
       (fun i =>
          if i_id i =? image_id
          then mkCarImage (i_id i) (i_car_id i) image_url is_primary
          else i)
       (car_images d))
    d.

(** UPDATE car_images SET image_url = %s WHERE id = %s *)
Definition sql_update_image_url (image_id : Z) (image_url : string) (d : DB)
  : DB :=
  set_car_images
    (List.map
       (fun i =>
          if i_id i =? image_id
          then mkCarImage (i_id i) (i_car_id i) image_url (i_is_primary i)
          else i)
       (car_images d))
    d.

(** ** The other operations of [db.py] *)

(** [str(n)] for an integer. *)
Definition str_of_Z (z : Z) : string := NilZero.string_of_int (Z.to_int z).

(** f"Database error: {e}" *)
Definition database_error (e : exn) : result :=
  failure ("Database error: " +:+ exn_text e).

Definition NotFoundOrProcessed : string :=
  "Booking not found or already processed.".

Definition admin_delete_booking (booking_id : Z) : M result :=
  try_except
    (with_connection
       (rows <- execute SELECT Bookings
                  (query (sql_booking_car_active booking_id)) ;;
        match fetchone rows with
        | None => ret (failure "Booking not found.")
        | Some (car_id, is_active) =>
            (if is_active
             then execute UPDATE Cars
                    (update (sql_set_car_available car_id true))
             else ret tt) ;;;
            execute DELETE Bookings
              (update (sql_delete_booking booking_id)) ;;;
            commit ;;;
            ret (ok_msg "Booking deleted successfully.")
        end))
    (fun e => ret (database_error e)).

(** The body of [register_customer], under its decorator: True, False or
    None. *)
Definition register_customer_body (telegram_id : Z) (name : string)
  : M (option bool) :=
  try_except
    (with_connection
       (rows <- execute SELECT Customers
                  (query (sql_customer_ids telegram_id)) ;;
        match fetchone rows with
        | Some _ => ret (Some false)
        | None =>
            execute INSERT Customers (sql_insert_customer telegram_id name) ;;;
            commit ;;;
            ret (Some true)
        end))
    (fun e => ret None).

Definition approve_booking (booking_id : Z) : M result :=
  try_except
    (with_connection
       (rows <- execute SELECT Bookings
                  (query (sql_pending_booking booking_id)) ;;
        match fetchone rows with
        | None => ret (failure NotFoundOrProcessed)
        | Some (_, car_id) =>
            execute UPDATE Bookings
              (update (sql_clear_pending booking_id)) ;;;
            execute UPDATE Cars
              (update (sql_set_car_available car_id false)) ;;;
            commit ;;;
            ret (ok_msg "Booking approved successfully.")
        end))
    (fun e => ret (database_error e)).

Definition reject_booking (booking_id : Z) : M result :=
  try_except
    (with_connection
       (rows <- execute SELECT Bookings
                  (query (sql_pending_booking booking_id)) ;;
        match fetchone rows with
        | None => ret (failure NotFoundOrProcessed)
        | Some _ =>
            execute DELETE Bookings
              (update (sql_delete_booking booking_id)) ;;;
            commit ;;;
            ret (ok_msg "Booking rejected successfully.")
        end))
    (fun e => ret (database_error e)).

Definition add_dealer (telegram_id : Z) (name : string) : M result :=
  try_except
    (with_connection
       (rows <- execute SELECT Dealers
                  (query (sql_dealer_ids_by_telegram telegram_id)) ;;
        match fetchone rows with
        | Some _ => ret (failure "Dealer with this Telegram ID already exists.")
        | None =>
            dealer_id <- execute INSERT Dealers
                           (sql_insert_dealer telegram_id name) ;;
            commit ;;;
            ret (ok_id dealer_id)
        end))
    (fun e => ret (database_error e)).

Definition delete_dealer (dealer_id : Z) : M result :=
  try_except
    (with_connection
       (rows <- execute SELECT Dealers (query (sql_dealer_ids dealer_id)) ;;
        match fetchone rows with
        | None => ret (failure "Dealer not found.")
        | Some _ =>
            car_ids <- execute SELECT Cars
                         (query (sql_car_ids_of_dealer dealer_id)) ;;
            (match car_ids with
             | [] => ret tt
             | _ => execute DELETE CarImages
                      (update (sql_delete_images_of_cars car_ids))
             end) ;;;
            execute DELETE Cars
              (update (sql_delete_cars_of_dealer dealer_id)) ;;;
            execute DELETE Dealers (update (sql_delete_dealer dealer_id)) ;;;
            commit ;;;
            ret (ok_msg "Dealer and all their cars deleted successfully.")
        end))
    (fun e => ret (database_error e)).

Definition add_dealer_car (dealer_id : Z) (make model : option string)
  (year : option Z) (photo_id : string) : M result :=
  try_except
    (with_connection
       (car_id <- execute INSERT Cars
                    (sql_insert_car dealer_id make model year) ;;
        execute INSERT CarImages (sql_insert_image car_id photo_id true) ;;;
        commit ;;;
        ret (ok_id car_id)))
    (fun e => ret (database_error e)).

Definition delete_dealer_car (dealer_id car_id : Z) : M result :=
  try_except
    (with_connection
       (rows <- execute SELECT Cars
                  (query (sql_car_of_dealer car_id dealer_id)) ;;
        match fetchone rows with
        | None => ret (failure "Car not found or doesn't belong to you.")
        | Some _ =>
            rows <- execute SELECT Bookings
                      (query (sql_active_bookings_of_car car_id)) ;;
            match fetchone rows with
            | Some _ =>
                ret (failure "Cannot delete a car that is currently booked.")
            | None =>
                execute DELETE CarImages
                  (update (sql_delete_images_of_car car_id)) ;;;
                execute DELETE Cars (update (sql_delete_car car_id)) ;;;
                commit ;;;
                ret (ok_msg "Car deleted successfully.")
            end
        end))
    (fun e => ret (database_error e)).

Definition update_car_image (car_id : Z) (image_url : string)
  (is_primary : bool) : M result :=
  try_except
    (with_connection
       (rows <- execute SELECT Cars (query (sql_car_ids car_id)) ;;
        match fetchone rows with
        | None => ret (failure "Car not found")
        | Some _ =>
            (if is_primary
             then execute UPDATE CarImages (update (sql_clear_primary car_id))
             else ret tt) ;;;
            rows <- execute SELECT CarImages
                      (query (sql_image_ids car_id is_primary)) ;;
            res <- match fetchone rows with
                   | Some image_id =>
                       execute UPDATE CarImages
                         (update
                            (sql_update_image image_id image_url is_primary)) ;;;
                       ret ("Updated image #" +:+ str_of_Z image_id)
                   | None =>
                       image_id <- execute INSERT CarImages
                                     (sql_insert_image car_id image_url
                                        is_primary) ;;
                       ret ("Added new image #" +:+ str_of_Z image_id)
                   end ;;
            commit ;;;
            ret (ok_msg res)
        end))
    (fun e => ret (database_error e)).

Definition refresh_car_image (car_id : Z) (new_file_id : string) : M result :=
  try_except
    (with_connection
       (rows <- execute SELECT Cars (query (sql_car_ids car_id)) ;;
        match fetchone rows with
        | None => ret (failure "Car not found")
        | Some _ =>
            rows <- execute SELECT CarImages
                      (query (sql_image_ids car_id true)) ;;
            res <- match fetchone rows with
                   | Some image_id =>
                       execute UPDATE CarImages
                         (update (sql_update_image_url image_id new_file_id)) ;;;
                       ret ("Updated primary image for car #" +:+
                            str_of_Z car_id)
                   | None =>
                       execute INSERT CarImages
                         (sql_insert_image car_id new_file_id true) ;;;
                       ret ("Created new primary image for car #" +:+
                            str_of_Z car_id)
                   end ;;
            commit ;;;
            ret (ok_msg res)
        end))
    (fun e => ret (database_error e)).

Definition get_customer_id (telegram_id : Z) : M (option Z) :=
  try_except
    (with_connection
       (rows <- execute SELECT Customers
                  (query (sql_customer_ids telegram_id)) ;;
        ret (fetchone rows)))
    (fun e => ret None).

Definition get_dealer_id (user_id : Z) : M (option Z) :=
  try_except
    (with_connection
       (rows <- execute SELECT Dealers
                  (query (sql_dealer_ids_by_telegram user_id)) ;;
        ret (fetchone rows)))
    (fun e => ret None).

(** [is_dealer] of [db.py], and of [handlers/dealer.py] around it. *)
Definition is_dealer (user_id : Z) : M bool :=
  try_except
    (try_except
       (with_connection
          (rows <- execute SELECT Dealers
                     (query (sql_dealer_ids_by_telegram user_id)) ;;
           ret (match fetchone rows with Some _ => true | None => false end)))
       (fun e => ret false))
    (fun e => ret false).

(** ** The retry decorator *)

Definition MAX_RETRIES : Z := 3.
Definition RETRY_DELAY : Z := 1.

Definition sleep (seconds : Z) : M unit :=
  fun w => (Ret tt, log (EvSleep seconds) w).

(** The [while retries < MAX_RETRIES] loop of [wrapper].  [fuel] bounds
    the iterations; [MAX_RETRIES] of it is enough, as [retries] grows by
    one in each.  [raise last_error] with [last_error = None] is Python's
    TypeError. *)
Fixpoint retry_loop {A} (fuel : nat) (func : M A) (retries : Z)
  (last_error : option exn) : M A :=
  if retries <? MAX_RETRIES then
    match fuel with
    | O => raise TypeError
    | S fuel' =>
        fun w =>
          match func w with
          | (Ret a, w1) => (Ret a, w1)
          | (Raise e, w1) =>
              if is_connection_error e then
                let retries' := retries + 1 in
                ((if retries' <? MAX_RETRIES then sleep RETRY_DELAY
                  else ret tt) ;;;
                 retry_loop fuel' func retries' (Some e)) w1
              else (Raise e, w1)
          end
    end
  else
    match last_error with
    | Some e => raise e
    | None => raise TypeError
    end.

Definition retry_on_db_error {A} (func : M A) : M A :=
  retry_loop (Z.to_nat MAX_RETRIES) func 0 None.

Definition register_customer (telegram_id : Z) (name : string)
  : M (option bool) :=
  retry_on_db_error (register_customer_body telegram_id name).

(** ** Strings: what the handlers and keyboards do with them *)

(** [s[n:]] *)
Fixpoint str_drop (n : nat) (s : string) : string :=
  match n, s with
  | O, _ => s
  | S n', String _ rest => str_drop n' rest
  | S _, EmptyString => EmptyString
  end.

(** [s.replace(old, "")] for a nonempty [old]: the occurrences are removed
    from left to right.  [fuel] is the number of characters still to be
    looked at. *)
Fixpoint str_remove_fuel (fuel : nat) (old s : string) : string :=
  match fuel with
  | O => s
  | S fuel' =>
      match s with
      | EmptyString => EmptyString
      | String c rest =>
          if String.prefix old s
          then str_remove_fuel fuel' old (str_drop (String.length old) s)
          else String c (str_remove_fuel fuel' old rest)
      end
  end.

Definition str_remove (old s : string) : string :=
  match old with
  | EmptyString => s
  | _ => str_remove_fuel (String.length s) old s
  end.

Definition digit_of (c : ascii) : option Z :=
  let n := Z.of_nat (nat_of_ascii c) in
  if (48 <=? n) && (n <=? 57) then Some (n - 48) else None.

Fixpoint digits_value (s : string) (acc : Z) : option Z :=
  match s with
  | EmptyString => Some acc
  | String c rest =>
      match digit_of c with
      | Some v => digits_value rest (10 * acc + v)
      | None => None
      end
  end.

(** [int(s)] on a decimal literal with an optional sign; [None] stands
    for the ValueError.  (Python also accepts blanks around the literal and
    underscores between digits; the callback data the keyboards build has
    neither.) *)
Definition py_int (s : string) : option Z :=
  match s with
  | EmptyString => None
  | String "-" EmptyString | String "+" EmptyString => None
  | String "-" rest => option_map Z.opp (digits_value rest 0)
  | String "+" rest => digits_value rest 0
  | _ => digits_value s 0
  end.

(** f"{n:02d}" *)
Definition fmt02d (n : Z) : string :=
  let s := str_of_Z n in
  if (String.length s <? 2)%nat then "0" +:+ s else s.

(** ** [utils/keyboards.py]: the time keyboard *)

Record Button := mkButton {
  text : string;
  callback_data : string }.

(** [range(a, b)] *)
Definition range (a b : Z) : list Z :=
  List.map (fun i => a + Z.of_nat i) (seq 0 (Z.to_nat (b - a))).

(** The body of the two nested loops: the rows for one [hour]. *)
Definition time_rows (for_start : bool) (now_hour now_minute : Z) (hour : Z)
  : list (list Button) :=
  flat_map
    (fun minute =>
       if for_start && (hour =? now_hour) && (minute <=? now_minute)
       then []
       else
         let time_str := fmt02d hour +:+ ":" +:+ fmt02d minute in
         let prefix := if for_start then "start_time_" else "end_time_" in
         [[mkButton time_str (prefix +:+ time_str)]])
    [0; 30].

(** [generate_time_keyboard(for_start)], with [datetime.now()] given as
    its hour and minute. *)
Definition generate_time_keyboard (for_start : bool) (now_hour now_minute : Z)
  : list (list Button) :=
  let start_hour :=
    if for_start && (8 <=? now_hour) then now_hour else 8 in
  let keyboard :=
    flat_map (time_rows for_start now_hour now_minute) (range start_hour 21) in
  let back_callback :=
    if for_start then "start_date_back" else "end_date_back" in
  keyboard ++
  [[mkButton "Back" back_callback; mkButton "Cancel" "back_to_menu"]].

(** The time slots a keyboard offers: the texts of its one-button rows. *)
Definition offered_slots (keyboard : list (list Button)) : list string :=
  flat_map
    (fun row => match row with [b] => [text b] | _ => [] end) keyboard.

(** ** The session store: aiogram's FSMContext over MemoryStorage *)

(** An incoming update: the chat and the user it comes from (together the
    key of the conversation), the callback data or text, whether the
    message the button sits on has a photo, and the file id of the photo
    sent, if any. *)
Record Update := mkUpdate {
  u_chat : Z;
  u_user : Z;
  u_data : string;
  u_has_photo : bool;
  u_photo : option string }.

Definition key_of (u : Update) : Z * Z := (u_chat u, u_user u).

Definition session_of (k : Z * Z) (w : World) : Session :=
  default empty_session (w_fsm w !! k).

(** [await state.get_data()] *)
Definition get_data (k : Z * Z) : M (gmap string value) :=
  fun w => (Ret (s_data (session_of k w)), w).

(** [await state.get_state()] *)
Definition get_state (k : Z * Z) : M (option fsm_state) :=
  fun w => (Ret (s_state (session_of k w)), w).

(** [await state.update_data(name=v)] *)
Definition update_data (k : Z * Z) (name : string) (v : value) : M unit :=
  fun w =>
    let s := session_of k w in
    (Ret tt,
     set_fsm (<[k := mkSession (s_state s) (<[name := v]> (s_data s))]>
                (w_fsm w)) w).

(** [await state.set_state(st)] *)
Definition set_state (k : Z * Z) (st : fsm_state) : M unit :=
  fun w =>
    let s := session_of k w in
    (Ret tt, set_fsm (<[k := mkSession (Some st) (s_data s)]> (w_fsm w)) w).

(** [await state.clear()]: the state becomes None and the data empty. *)
Definition clear (k : Z * Z) : M unit :=
  fun w => (Ret tt, set_fsm (<[k := empty_session]> (w_fsm w)) w).

(** ** The presentation helper *)

Definition is_TelegramAPIError (e : exn) : bool :=
  match e with TelegramAPIError | MessageNotModified => true | _ => false end.

Definition is_MessageNotModified (e : exn) : bool :=
  match e with MessageNotModified => true | _ => false end.

(** [send_or_edit_message(callback_query, text, reply_markup)] without a
    photo to send: a message with a photo is deleted and a new one sent, a
    text message is edited; whatever is raised inside is caught by the
    outer handler, which tries one fallback message.  It always returns. *)
Definition send_or_edit_message (has_photo : bool) : M unit :=
  try_except
    (if has_photo then
       try_except (transport EvDeleteMessage) (fun _ => ret tt) ;;;
       transport EvSendMessage
     else
       try_except (transport EvEditMessage)
         (fun e =>
            if is_TelegramAPIError e then
              if is_MessageNotModified e then ret tt
              else transport EvSendMessage
            else raise e))
    (fun _ => try_except (transport EvSendMessage) (fun _ => ret tt)).

(** [await callback_query.answer(...)] *)
Definition answer_callback : M unit := transport EvAnswerCallback.

(** [await message.answer(...)] *)
Definition message_answer : M unit := transport EvSendMessage.

(** Python's truth value of an optional id: None and 0 are false. *)
Definition truthy (o : option Z) : bool :=
  match o with
  | Some z => negb (z =? 0)
  | None => false
  end.

Definition as_text (v : option value) : option string :=
  match v with
  | Some (VStr s) => Some s
  | Some (VInt z) => Some (str_of_Z z)
  | None => None
  end.

Definition as_int (v : option value) : option Z :=
  match v with
  | Some (VInt z) => Some z
  | Some (VStr s) => py_int s
  | None => None
  end.

(** ** [handlers/customer.py] *)

(** [get_car_details]: the car joined with its dealer, or None. *)
Definition sql_car_with_dealer (car_id : option Z) (d : DB)
  : list (Car * Dealer) :=
  match car_id with
  | None => []
  | Some id =>
      flat_map
        (fun c =>
           if c_id c =? id
           then List.map (fun x => (c, x))
                  (List.filter (fun x => d_id x =? c_dealer_id c) (dealers d))
           else [])
        (cars d)
  end.

(** SELECT image_url, is_primary FROM car_images WHERE car_id = %s *)
Definition sql_images_of_car (car_id : option Z) (d : DB)
  : list (string * bool) :=
  match car_id with
  | None => []
  | Some id =>
      List.map (fun i => (i_image_url i, i_is_primary i))
        (List.filter (fun i => i_car_id i =? id) (car_images d))
  end.

Definition get_car_details (car_id : option Z)
  : M (option (Car * Dealer * list (string * bool))) :=
  try_except
    (with_connection
       (rows <- execute SELECT Cars (query (sql_car_with_dealer car_id)) ;;
        match fetchone rows with
        | None => ret None
        | Some car =>
            images <- execute SELECT CarImages
                        (query (sql_images_of_car car_id)) ;;
            ret (Some (car, images))
        end))
    (fun e => ret None).

Definition start_date_handler (u : Update) : M unit :=
  let k := key_of u in
  try_except
    (state_data <- get_data k ;;
     let date_str := str_remove "start_date_" (u_data u) in
     update_data k "start_date" (VStr date_str) ;;;
     answer_callback ;;;
     send_or_edit_message (u_has_photo u) ;;;
     set_state k booking_select_start_time)
    (fun e => state_data <- get_data k ;; message_answer).

Definition start_time_handler (u : Update) : M unit :=
  let k := key_of u in
  try_except
    (state_data <- get_data k ;;
     let time_str := str_remove "start_time_" (u_data u) in
     let start_date :=
       match as_text (state_data !! "start_date") with
       | Some s => s
       | None => "None"
       end in
     update_data k "start_time" (VStr time_str) ;;;
     update_data k "start_datetime"
       (VStr (start_date +:+ " " +:+ time_str)) ;;;
     send_or_edit_message (u_has_photo u) ;;;
     set_state k booking_select_end_date)
    (fun e => state_data <- get_data k ;; message_answer).

Definition end_date_handler (u : Update) : M unit :=
  let k := key_of u in
  try_except
    (state_data <- get_data k ;;
     let date_str := str_remove "end_date_" (u_data u) in
     update_data k "end_date" (VStr date_str) ;;;
     send_or_edit_message (u_has_photo u) ;;;
     set_state k booking_select_end_time)
    (fun e => state_data <- get_data k ;; message_answer).

Definition end_time_handler (u : Update) : M unit :=
  let k := key_of u in
  try_except
    (state_data <- get_data k ;;
     let time_str := str_remove "end_time_" (u_data u) in
     let end_date :=
       match as_text (state_data !! "end_date") with
       | Some s => s
       | None => "None"
       end in
     let car_id := as_int (state_data !! "car_id") in
     update_data k "end_time" (VStr time_str) ;;;
     update_data k "end_datetime" (VStr (end_date +:+ " " +:+ time_str)) ;;;
     car_details <- get_car_details car_id ;;
     match car_details with
     | None => send_or_edit_message (u_has_photo u)
     | Some _ =>
         send_or_edit_message (u_has_photo u) ;;;
         set_state k confirming_booking
     end)
    (fun e => state_data <- get_data k ;; message_answer).

Definition confirm_booking_handler (u : Update) : M unit :=
  let k := key_of u in
  try_except
    (state_data <- get_data k ;;
     car_id <- match py_int (str_remove "confirm_booking_" (u_data u)) with
               | Some n => ret n
               | None => raise ValueError
               end ;;
     customer_id <- get_customer_id (u_user u) ;;
     if negb (truthy customer_id) then send_or_edit_message (u_has_photo u)
     else
       r <- book_car (default 0 customer_id) car_id ;;
       (if fst r then
          let start_datetime := state_data !! "start_datetime" in
          let end_datetime := state_data !! "end_datetime" in
          answer_callback ;;;
          send_or_edit_message (u_has_photo u)
        else send_or_edit_message (u_has_photo u)) ;;;
       clear k)
    (fun e => state_data <- get_data k ;; message_answer).

Definition back_to_menu_handler (u : Update) : M unit :=
  let k := key_of u in
  try_except
    (state_data <- get_data k ;;
     send_or_edit_message (u_has_photo u) ;;;
     clear k)
    (fun e => message_answer).

Definition cancel_handler (u : Update) : M unit :=
  let k := key_of u in
  try_except
    (current_state <- get_state k ;;
     match current_state with
     | None => message_answer
     | Some _ => clear k ;;; message_answer
     end)
    (fun e => message_answer).

(** ** [handlers/dealer.py] *)

(** [is_admin_group(message)], with [ADMIN_GROUP_ID] of the configuration
    as a parameter. *)
Definition is_admin_group (ADMIN_GROUP_ID : Z) (u : Update) : bool :=
  u_chat u =? ADMIN_GROUP_ID.

Definition dealer_add_car_photo_handler (ADMIN_GROUP_ID : Z) (u : Update)
  : M unit :=
  let k := key_of u in
  if negb (is_admin_group ADMIN_GROUP_ID u) then message_answer
  else
    dealer <- is_dealer (u_user u) ;;
    if negb dealer then message_answer
    else
      try_except
        (state_data <- get_data k ;;
         photo_id <- match u_photo u with
                     | Some p => ret p
                     | None => raise TypeError
                     end ;;
         data <- get_data k ;;
         let make := as_text (data !! "car_make") in
         let model := as_text (data !! "car_model") in
         let year := as_int (data !! "car_year") in
         dealer_id <- get_dealer_id (u_user u) ;;
         if negb (truthy dealer_id) then message_answer ;;; clear k
         else
           r <- add_dealer_car (default 0 dealer_id) make model year
                  photo_id ;;
           if fst r then message_answer ;;; clear k
           else message_answer)
        (fun e => state_data <- get_data k ;; message_answer).

(** [process_refreshed_car_photo], the sibling of the handler above. *)
Definition process_refreshed_car_photo (ADMIN_GROUP_ID : Z) (u : Update)
  : M unit :=
  let k := key_of u in
  if negb (is_admin_group ADMIN_GROUP_ID u) then message_answer
  else
    dealer <- is_dealer (u_user u) ;;
    if negb dealer then message_answer
    else
      try_except
        (state_data <- get_data k ;;
         let car_id := as_int (state_data !! "refresh_car_id") in
         if negb (truthy car_id) then message_answer ;;; clear k
         else
           photo_id <- match u_photo u with
                       | Some p => ret p
                       | None => raise TypeError
                       end ;;
           r <- refresh_car_image (default 0 car_id) photo_id ;;
           (if fst r then message_answer else message_answer) ;;;
           clear k)
        (fun e =>
           state_data <- get_data k ;; message_answer ;;; clear k).

(** ** Calls of [book_car] in flight *)

(** Where a call of [book_car] stands between two of its statements.  Each
    call has its own connection; the database server runs the statements of
    several calls in any order.  A statement sees what the statements
    before it wrote, which is the most a transaction can see of the others
    (under READ COMMITTED it sees their writes only once committed). *)
Inductive pc :=
| AtStart
| CheckedCustomer
| CheckedCar
| Inserted (booking_id : Z)
| Finished (r : result).

Record Call := mkCall {
  k_customer : Z;
  k_car : Z;
  k_pc : pc }.

Definition at_pc (p : pc) (c : Call) : Call :=
  mkCall (k_customer c) (k_car c) p.

(** The next statement of a call, on the shared database. *)
Definition step_call (now : Z) (c : Call) (d : DB) : Call * DB :=
  match k_pc c with
  | AtStart =>
      match fetchone (sql_active_bookings_of (k_customer c) d) with
      | Some _ => (at_pc (Finished (failure AlreadyBooked)) c, d)
      | None => (at_pc CheckedCustomer c, d)
      end
  | CheckedCustomer =>
      match fetchone (sql_car_available (k_car c) d) with
      | None => (at_pc (Finished (failure CarNotFound)) c, d)
      | Some false => (at_pc (Finished (failure CarUnavailable)) c, d)
      | Some true => (at_pc CheckedCar c, d)
      end
  | CheckedCar =>
      let (id, d') := sql_insert_booking (k_customer c) (k_car c) now d in
      (at_pc (Inserted id) c, d')
  | Inserted id =>
      (at_pc (Finished (ok_id id)) c,
       sql_set_car_available (k_car c) false d)
  | Finished _ => (c, d)
  end.

(** A schedule names, step by step, the call that runs its next
    statement. *)
Fixpoint run_schedule (now : Z) (schedule : list nat) (calls : list Call)
  (d : DB) : list Call * DB :=
  match schedule with
  | [] => (calls, d)
  | i :: rest =>
      match calls !! i with
      | None => run_schedule now rest calls d
      | Some c =>
          let (c', d') := step_call now c d in
          run_schedule now rest (<[i := c']> calls) d'
      end
  end.

Definition succeeded (r : result) : bool := fst r.

Definition call_succeeded (c : Call) : bool :=
  match k_pc c with
  | Finished r => succeeded r
  | _ => false
  end.

(** Calls of [book_car] for the same car, one after the other. *)
Fixpoint book_each (car_id : Z) (customer_ids : list Z) : M (list result) :=
  match customer_ids with
  | [] => ret []
  | c :: cs =>
      r <- book_car c car_id ;;
      rs <- book_each car_id cs ;;
      ret (r :: rs)
  end.

(** ** Sequences of engine operations *)

Inductive op :=
| RegisterCustomer (telegram_id : Z) (name : string)
| BookCar (customer_id car_id : Z)
| ReturnCar (booking_id : Z)
| ApproveBooking (booking_id : Z)
| RejectBooking (booking_id : Z)
| AdminDeleteBooking (booking_id : Z)
| AddDealer (telegram_id : Z) (name : string)
| DeleteDealer (dealer_id : Z)
| AddCar (dealer_id : Z) (make model : option string) (year : option Z)
         (photo_id : string)
| DeleteCar (dealer_id car_id : Z)
| UpdateCarImage (car_id : Z) (image_url : string) (is_primary : bool)
| RefreshCarImage (car_id : Z) (new_file_id : string).

Definition run_op (o : op) : M unit :=
  match o with
  | RegisterCustomer t n => register_customer t n ;;; ret tt
  | BookCar c k => book_car c k ;;; ret tt
  | ReturnCar b => return_car b ;;; ret tt
  | ApproveBooking b => approve_booking b ;;; ret tt
  | RejectBooking b => reject_booking b ;;; ret tt
  | AdminDeleteBooking b => admin_delete_booking b ;;; ret tt
  | AddDealer t n => add_dealer t n ;;; ret tt
  | DeleteDealer k => delete_dealer k ;;; ret tt
  | AddCar k mk md y p => add_dealer_car k mk md y p ;;; ret tt
  | DeleteCar k c => delete_dealer_car k c ;;; ret tt
  | UpdateCarImage c i p => update_car_image c i p ;;; ret tt
  | RefreshCarImage c f => refresh_car_image c f ;;; ret tt
  end.

(** The clock moves between operations. *)
Definition at_time (t : Z) : M unit := fun w => (Ret tt, set_now t w).

(** Operations one after the other, each at its time. *)
Fixpoint run_ops (os : list (Z * op)) : M unit :=
  match os with
  | [] => ret tt
  | (t, o) :: rest => at_time t ;;; run_op o ;;; run_ops rest
  end.

(** The number of active bookings of a customer. *)
Definition active_count (customer_id : Z) (bs : list Booking) : nat :=
  length
    (List.filter (fun b => (b_customer_id b =? customer_id) && b_active b) bs).

Definition one_active_booking (d : DB) : Prop :=
  forall customer_id, (active_count customer_id (bookings d) <= 1)%nat.

(** Booking ids come from the sequence: none in the table is ahead of it. *)
Definition booking_ids_fresh (d : DB) : Prop :=
  forall b, In b (bookings d) -> b_id b < bookings_seq d.

(** ** Specifications of runs *)

(** [runs now d t m Q E]: from any world whose clock shows [now], whose
    committed database is [d] and whose transaction holds [t], whatever
    the schedules of failures, [m] either returns [a] with [Q a] of the
    committed database and of the transaction, or raises with [E] of the
    committed database; the clock is left as it is. *)
Definition runs {A} (now : Z) (d t : DB) (m : M A)
  (Q : A -> DB -> DB -> Prop) (E : DB -> Prop) : Prop :=
  forall w, w_now w = now -> w_db w = d -> w_txn w = t ->
    match m w with
    | (Ret a, w') => w_now w' = now /\ Q a (w_db w') (w_txn w')
    | (Raise _, w') => w_now w' = now /\ E (w_db w')
    end.

(** The worlds in which no round trip to the database fails. *)
Definition backend_up (w : World) : Prop := w_backend w = [].

(** The worlds in which no call of the chat API fails. *)
Definition transport_up (w : World) : Prop := w_transport w = [].

(** ** Rows the statements of [book_car] look at *)

Definition has_active_booking (customer_id : Z) (d : DB) : Prop :=
  exists b, In b (bookings d) /\ b_customer_id b = customer_id /\
            b_active b = true.

(** The row [SELECT available FROM cars WHERE id = %s] returns first. *)
Definition find_car (car_id : Z) (d : DB) : option Car :=
  List.find (fun c => c_id c =? car_id) (cars d).

(** The database after the INSERT and the UPDATE of a successful
    [book_car]. *)
Definition booked (customer_id car_id now : Z) (d : DB) : DB :=
  sql_set_car_available car_id false
    (snd (sql_insert_booking customer_id car_id now d)).

(** ** The operations as the specification words them *)

(** bookCar, in the words of the specification: (1) AlreadyBooked if the
    customer has a booking with active=true; (2) otherwise CarNotFound if
    no car row has that id; (3) otherwise CarUnavailable if the car's
    available flag is false; (4) otherwise a new booking row with
    active=true and start_date=now is inserted, the car's available flag
    is set to false and the new booking id is returned. *)
Definition spec_book_car (customer_id car_id now : Z) (d : DB)
  : result * DB :=
  if existsb (fun b => (b_customer_id b =? customer_id) && b_active b)
             (bookings d)
  then (failure AlreadyBooked, d)
  else
    match find_car car_id d with
    | None => (failure CarNotFound, d)
    | Some c =>
        if negb (c_available c) then (failure CarUnavailable, d)
        else
          let id := bookings_seq d in
          let row :=
            mkBooking id customer_id car_id now None true
                      (pending_default d) in
          (ok_id id,
           mkDB (customers d) (dealers d)
                (List.map
                   (fun c => if c_id c =? car_id
                             then set_available false c else c)
                   (cars d))
                (car_images d) (bookings d ++ [row])
                (customers_seq d) (dealers_seq d) (cars_seq d)
                (car_images_seq d) (id + 1) (pending_default d))
    end.

(** ** A small database to run the operations on *)

Definition demo_db : DB :=
  mkDB [mkCustomer 1 100 "Ann" 0; mkCustomer 2 200 "Bob" 0]
       [mkDealer 1 900 "Dealer"]
       [mkCar 5 1 (Some "Toyota") (Some "Corolla") (Some 2022) true;
        mkCar 7 1 (Some "Honda") (Some "Civic") (Some 2021) true]
       [mkCarImage 1 5 "photo-5" true; mkCarImage 2 7 "photo-7" true]
       []
       3 2 8 3 1 false.

Definition world_of (d : DB) (now : Z) : World :=
  mkWorld d d now [] [] ∅ [].

Definition demo_world : World := world_of demo_db 1000.

(** returnCar, in the words of the specification: BookingNotFound if no
    active booking matches; otherwise the booking gets active=false and
    end_date=now and the car of the booking gets available=true. *)
Definition spec_return_car (booking_id now : Z) (d : DB) : result * DB :=
  match List.find (fun b => (b_id b =? booking_id) && b_active b)
                  (bookings d) with
  | None => (failure BookingNotFound, d)
  | Some b =>
      (ok_msg "Car returned successfully.",
       mkDB (customers d) (dealers d)
            (List.map
               (fun c => if c_id c =? b_car_id b
                         then set_available true c else c)
               (cars d))
            (car_images d)
            (List.map
               (fun x => if b_id x =? booking_id
                         then close_booking now x else x)
               (bookings d))
            (customers_seq d) (dealers_seq d) (cars_seq d)
            (car_images_seq d) (bookings_seq d) (pending_default d))
  end.

(** approveBooking, in the words of the specification: it operates only on
    a booking with pending=true and fails with NotFoundOrProcessed
    otherwise; it clears the pending flag and marks the car unavailable. *)
Definition spec_approve_booking (booking_id : Z) (d : DB) : result * DB :=
  match List.find (fun b => (b_id b =? booking_id) && b_pending b)
                  (bookings d) with
  | None => (failure NotFoundOrProcessed, d)
  | Some b =>
      (ok_msg "Booking approved successfully.",
       mkDB (customers d) (dealers d)
            (List.map
               (fun c => if c_id c =? b_car_id b
                         then set_available false c else c)
               (cars d))
            (car_images d)
            (List.map
               (fun x => if b_id x =? booking_id
                         then set_pending false x else x)
               (bookings d))
            (customers_seq d) (dealers_seq d) (cars_seq d)
            (car_images_seq d) (bookings_seq d) (pending_default d))
  end.

(** rejectBooking, in the words of the specification: it operates only on
    a booking with pending=true and fails with NotFoundOrProcessed
    otherwise; it deletes the booking row; the cars are left as they
    are. *)
Definition spec_reject_booking (booking_id : Z) (d : DB) : result * DB :=
  match List.find (fun b => (b_id b =? booking_id) && b_pending b)
                  (bookings d) with
  | None => (failure NotFoundOrProcessed, d)
  | Some _ =>
      (ok_msg "Booking rejected successfully.",
       mkDB (customers d) (dealers d) (cars d) (car_images d)
            (List.filter (fun x => negb (b_id x =? booking_id)) (bookings d))
            (customers_seq d) (dealers_seq d) (cars_seq d)
            (car_images_seq d) (bookings_seq d) (pending_default d))
  end.

(** adminDeleteBooking, in the words of the specification: the booking is
    deleted whatever its state; if it was active, the car is made
    available again. *)
Definition spec_admin_delete_booking (booking_id : Z) (d : DB)
  : result * DB :=
  match List.find (fun b => b_id b =? booking_id) (bookings d) with
  | None => (failure "Booking not found.", d)
  | Some b =>
      (ok_msg "Booking deleted successfully.",
       mkDB (customers d) (dealers d)
            (if b_active b
             then List.map
                    (fun c => if c_id c =? b_car_id b
                              then set_available true c else c)
                    (cars d)
             else cars d)
            (car_images d)
            (List.filter (fun x => negb (b_id x =? booking_id)) (bookings d))
            (customers_seq d) (dealers_seq d) (cars_seq d)
            (car_images_seq d) (bookings_seq d) (pending_default d))
  end.

(** deleteDealer, as the code cascades it: the dealer row, the cars of the
    dealer and the images of those cars go; the bookings are not part of
    the cascade. *)
Definition spec_delete_dealer (dealer_id : Z) (d : DB) : result * DB :=
  match List.find (fun x => d_id x =? dealer_id) (dealers d) with
  | None => (failure "Dealer not found.", d)
  | Some _ =>
      let gone :=
        List.map c_id
          (List.filter (fun c => c_dealer_id c =? dealer_id) (cars d)) in
      (ok_msg "Dealer and all their cars deleted successfully.",
       mkDB (customers d)
            (List.filter (fun x => negb (d_id x =? dealer_id)) (dealers d))
            (List.filter (fun c => negb (c_dealer_id c =? dealer_id)) (cars d))
            (List.filter (fun i => negb (mem (i_car_id i) gone))
                         (car_images d))
            (bookings d)
            (customers_seq d) (dealers_seq d) (cars_seq d)
            (car_images_seq d) (bookings_seq d) (pending_default d))
  end.

(** No row references a row that is not there: every car has its dealer,
    every image and every booking its car. *)
Definition no_dangling_reference (d : DB) : Prop :=
  (forall c, In c (cars d) -> exists x, In x (dealers d) /\
                                        d_id x = c_dealer_id c) /\
  (forall i, In i (car_images d) -> exists c, In c (cars d) /\
                                              c_id c = i_car_id i) /\
  (forall b, In b (bookings d) -> exists c, In c (cars d) /\
                                            c_id c = b_car_id b).

(** [demo_db] with a returned booking of car 5 in it. *)
Definition demo_db_booked : DB :=
  set_bookings [mkBooking 1 1 5 500 (Some 600) false false]
    (set_bookings_seq 2 demo_db).

(** [demo_db] with booking 9 of car 7 waiting for approval. *)
Definition demo_db_pending : DB :=
  set_bookings [mkBooking 9 2 7 500 None false true]
    (set_bookings_seq 10 demo_db).

(** [demo_db] with customer 1 driving car 5: booking 1 is active. *)
Definition demo_db_active : DB :=
  set_cars
    [mkCar 5 1 (Some "Toyota") (Some "Corolla") (Some 2022) false;
     mkCar 7 1 (Some "Honda") (Some "Civic") (Some 2021) true]
    (set_bookings [mkBooking 1 1 5 500 None true false]
       (set_bookings_seq 2 demo_db)).

(** The operations a sequence may hold when the bookings in [may_return]
    are the only ones that may be returned. *)
Definition allowed (may_return : Z -> Prop) (o : op) : Prop :=
  match o with
  | ReturnCar b => may_return b
  | _ => True
  end.

(** The booking rows with the id [booking_id] have no end_date. *)
Definition end_date_null (booking_id : Z) (d : DB) : Prop :=
  forall b, In b (bookings d) -> b_id b = booking_id -> b_end_date b = None.

(** Two worlds that differ in their session stores at most. *)
Definition agree (w1 w2 : World) : Prop :=
  w_db w1 = w_db w2 /\ w_txn w1 = w_txn w2 /\ w_now w1 = w_now w2 /\
  w_backend w1 = w_backend w2 /\ w_transport w1 = w_transport w2 /\
  w_trace w1 = w_trace w2.

(** Whether two outcomes are both results or both the same exception. *)
Definition same_shape {A B} (o1 : outcome A) (o2 : outcome B) : Prop :=
  match o1, o2 with
  | Ret _, Ret _ => True
  | Raise e1, Raise e2 => e1 = e2
  | _, _ => False
  end.

(** [m] does not look at the session store: from worlds that agree it
    gives the same outcome and worlds that agree. *)
Definition oblivious {A} (m : M A) : Prop :=
  forall w1 w2, agree w1 w2 ->
    fst (m w1) = fst (m w2) /\ agree (snd (m w1)) (snd (m w2)).

(** [m] may read the session store, but what it does otherwise does not
    depend on it. *)
Definition blind {A} (m : M A) : Prop :=
  forall w1 w2, agree w1 w2 ->
    same_shape (fst (m w1)) (fst (m w2)) /\ agree (snd (m w1)) (snd (m w2)).

(** An operation that has either done all of its writes, leaving [done]
    and reporting success, or none of them, leaving [d] and reporting a
    failure. *)
Definition all_or_nothing (r : outcome result) (d' d done : DB) : Prop :=
  (exists x, r = Ret (true, x) /\ d' = done) \/
  (exists msg, r = Ret (failure msg) /\ d' = d).

(** The database after both INSERTs of [add_dealer_car]. *)
Definition car_added (dealer_id : Z) (make model : option string)
  (year : option Z) (photo_id : string) (d : DB) : DB :=
  mkDB (customers d) (dealers d)
       (cars d ++ [mkCar (cars_seq d) dealer_id make model year true])
       (car_images d ++
        [mkCarImage (car_images_seq d) (cars_seq d) photo_id true])
       (bookings d)
       (customers_seq d) (dealers_seq d) (cars_seq d + 1)
       (car_images_seq d + 1) (bookings_seq d) (pending_default d).

(** [answers now d t m Q]: from every world at time [now] with committed
    database [d] and working copy [t] in which the database answers every
    round trip, [m] returns a value, leaving databases that satisfy [Q],
    and the database still answers. *)
Definition answers {A} (now : Z) (d t : DB) (m : M A)
  (Q : A -> DB -> DB -> Prop) : Prop :=
  forall w, w_now w = now -> w_db w = d -> w_txn w = t -> backend_up w ->
    match m w with
    | (Ret a, w') =>
        w_now w' = now /\ backend_up w' /\ Q a (w_db w') (w_txn w')
    | (Raise _, _) => False
    end.

(** Every run of [m] that returns leaves the session of conversation [k]
    cleared. *)
Definition returns_cleared {A} (k : Z * Z) (m : M A) : Prop :=
  forall w,
    match m w with
    | (Ret _, w') => session_of k w' = empty_session
    | (Raise _, _) => True
    end.


(** * Theorems *)

(** ** Result sets *)

Lemma fetchone_map_filter {A B} (f : A -> B) (p : A -> bool) (l : list A) :
  fetchone (List.map f (List.filter p l)) = option_map f (List.find p l).
Proof.
  induction l as [|x l IH]; simpl; [reflexivity|].
  destruct (p x); simpl; [reflexivity|exact IH].
Qed.

Lemma has_active_booking_find customer_id d :
  has_active_booking customer_id d <->
  List.find (fun b => (b_customer_id b =? customer_id) && b_active b)
            (bookings d) <> None.
Proof.
  split.
  - intros (b & Hin & Hc & Ha) Hnone.
    pose proof (find_none _ _ Hnone b Hin) as H. simpl in H.
    rewrite Hc, Z.eqb_refl, Ha in H. discriminate.
  - intros H. destruct (List.find _ _) as [b|] eqn:Hf; [|congruence].
    apply find_some in Hf. destruct Hf as [Hin Hp].
    apply andb_true_iff in Hp. destruct Hp as [Hc Ha].
    exists b. split; [exact Hin|]. split; [lia|exact Ha].
Qed.

(** ** Rules for [runs] *)

Section Rules.
Context {A B : Type}.
Variables (now : Z) (d t : DB).

Lemma runs_ret (a : A) Q E : Q a d t -> runs now d t (ret a) Q E.
Proof. intros H w Hn Hd Ht. simpl. subst. auto. Qed.

Lemma runs_raise e (Q : A -> DB -> DB -> Prop) (E : DB -> Prop) :
  E d -> runs now d t (raise e) Q E.
Proof. intros H w Hn Hd Ht. simpl. subst. auto. Qed.

Lemma runs_bind (m : M A) (k : A -> M B) Q E :
  runs now d t m (fun a d' t' => runs now d' t' (k a) Q E) E ->
  runs now d t (bind m k) Q E.
Proof.
  intros H w Hn Hd Ht. unfold bind. specialize (H w Hn Hd Ht).
  destruct (m w) as [[a|e] w1]; [|exact H].
  destruct H as [Hn1 H]. exact (H w1 Hn1 eq_refl eq_refl).
Qed.

Lemma runs_try_except (m : M A) (h : exn -> M A) Q E :
  runs now d t m Q (fun d' => forall e t', runs now d' t' (h e) Q E) ->
  runs now d t (try_except m h) Q E.
Proof.
  intros H w Hn Hd Ht. unfold try_except. specialize (H w Hn Hd Ht).
  destruct (m w) as [[a|e] w1]; [exact H|].
  destruct H as [Hn1 H]. exact (H e (w_txn w1) w1 Hn1 eq_refl eq_refl).
Qed.

Lemma runs_conseq (m : M A) (Q Q' : A -> DB -> DB -> Prop)
  (E E' : DB -> Prop) :
  runs now d t m Q E ->
  (forall a d' t', Q a d' t' -> Q' a d' t') ->
  (forall d', E d' -> E' d') ->
  runs now d t m Q' E'.
Proof.
  intros H HQ HE w Hn Hd Ht. specialize (H w Hn Hd Ht).
  destruct (m w) as [[a|e] w1]; destruct H; split; auto.
Qed.

Lemma runs_execute v tb (stmt : Z -> DB -> A * DB) Q E :
  E d ->
  Q (fst (stmt now t)) d (snd (stmt now t)) ->
  runs now d t (execute v tb stmt) Q E.
Proof.
  intros HE HQ w Hn Hd Ht. unfold execute, bind, backend.
  destruct (w_backend w) as [|[e|] rest]; simpl; subst;
    try destruct (stmt _ _); simpl in *; auto.
Qed.

End Rules.

Arguments runs_bind {A B} now d t m k Q E _.

Section PrimitiveRules.
Variables (now : Z) (d t : DB).

Lemma runs_backend ev (Q : unit -> DB -> DB -> Prop) (E : DB -> Prop) :
  E d -> Q tt d t -> runs now d t (backend ev) Q E.
Proof.
  intros HE HQ w Hn Hd Ht. unfold backend.
  destruct (w_backend w) as [|[e|] rest]; simpl; subst; auto.
Qed.

Lemma runs_transport ev (Q : unit -> DB -> DB -> Prop) (E : DB -> Prop) :
  E d -> Q tt d t -> runs now d t (transport ev) Q E.
Proof.
  intros HE HQ w Hn Hd Ht. unfold transport.
  destruct (w_transport w) as [|[e|] rest]; simpl; subst; auto.
Qed.

Lemma runs_commit (Q : unit -> DB -> DB -> Prop) (E : DB -> Prop) :
  E d -> Q tt t t -> runs now d t commit Q E.
Proof.
  intros HE HQ w Hn Hd Ht. unfold commit, bind, backend.
  destruct (w_backend w) as [|[e|] rest]; simpl; subst; auto.
Qed.

Lemma runs_get_connection (Q : unit -> DB -> DB -> Prop) (E : DB -> Prop) :
  E d -> Q tt d t -> runs now d t get_connection Q E.
Proof.
  intros HE HQ. unfold get_connection.
  repeat (apply runs_bind; apply runs_backend; [exact HE|]).
  apply runs_backend; assumption.
Qed.

Lemma runs_with_connection {A} (body : M A) Q E :
  E d ->
  runs now d d body (fun a _ t' => Q a t' t') E ->
  runs now d t (with_connection body) Q E.
Proof.
  intros HE H w Hn Hd Ht. unfold with_connection.
  pose proof (runs_get_connection
                (fun _ d' _ => d' = d) (fun d' => d' = d)
                eq_refl eq_refl w Hn Hd Ht) as Hc.
  destruct (get_connection w) as [[[]|e] w1]; destruct Hc as [Hn1 Hd1].
  - specialize (H (set_txn (w_db w1) w1) Hn1 Hd1 Hd1).
    destruct (body _) as [[a|e] w2]; simpl; exact H.
  - split; [exact Hn1|]. rewrite Hd1. exact HE.
Qed.

End PrimitiveRules.

(** Symbolic execution of a run: one rule per construct. *)
Ltac runs_step :=
  lazymatch goal with
  | |- runs _ _ _ (try_except _ _) _ _ => apply runs_try_except
  | |- runs _ _ _ (with_connection _) _ _ => apply runs_with_connection
  | |- runs _ _ _ (bind _ _) _ _ => apply runs_bind
  | |- runs _ _ _ (execute _ _ _) _ _ => apply runs_execute
  | |- runs _ _ _ commit _ _ => apply runs_commit
  | |- runs _ _ _ (ret _) _ _ => apply runs_ret
  | |- runs _ _ _ (raise _) _ _ => apply runs_raise
  | |- runs _ _ _ (backend _) _ _ => apply runs_backend
  | |- runs _ _ _ (transport _) _ _ => apply runs_transport
  | |- runs _ _ _ (match ?x with _ => _ end) _ _ => destruct x eqn:?
  | |- runs _ _ _ (if ?x then _ else _) _ _ => destruct x eqn:?
  | |- forall _, _ => intro
  end.

Ltac up w :=
  destruct w as [d t now be tp fsm tr]; unfold backend_up in *;
  simpl in *; subst.

(** ** [book_car] *)

Lemma find_existsb {A} (p : A -> bool) (l : list A) :
  existsb p l = match List.find p l with Some _ => true | None => false end.
Proof.
  induction l as [|x l IH]; simpl; [reflexivity|].
  destruct (p x); simpl; [reflexivity|exact IH].
Qed.

(** Whatever fails on the way, [book_car] returns, and it has either done
    all of its writes or none. *)
Lemma book_car_atomic now d t customer_id car_id :
  runs now d t (book_car customer_id car_id)
    (fun r d' _ =>
       (r = ok_id (bookings_seq d) /\
        d' = booked customer_id car_id now d) \/
       (exists msg, r = failure msg /\ d' = d))
    (fun _ => False).
Proof.
  unfold book_car.
  assert (HE : forall e t',
             runs now d t'
               (if is_IntegrityError e then ret (failure ConstraintViolation)
                else if is_psycopg2_Error e then ret (failure BackendFailure)
                else ret (failure InternalError))
               (fun r d' _ =>
                  (r = ok_id (bookings_seq d) /\
                   d' = booked customer_id car_id now d) \/
                  (exists msg, r = failure msg /\ d' = d))
               (fun _ => False)).
  { intros e t'. repeat runs_step; right; eexists; split; reflexivity. }
  repeat runs_step; try exact HE; simpl;
    try (right; eexists; split; reflexivity).
  left. split; reflexivity.
Qed.

Lemma book_car_up w customer_id car_id :
  backend_up w ->
  let r := book_car customer_id car_id w in
  fst r = Ret (fst (spec_book_car customer_id car_id (w_now w) (w_db w))) /\
  w_db (snd r) = snd (spec_book_car customer_id car_id (w_now w) (w_db w)) /\
  backend_up (snd r).
Proof.
  intros Hup. up w.
  unfold book_car, try_except, with_connection, get_connection, execute,
    commit, bind, backend, query, update, ret, spec_book_car; simpl.
  unfold sql_active_bookings_of. rewrite fetchone_map_filter, find_existsb.
  destruct (List.find _ (bookings d)); simpl; [repeat split|].
  unfold sql_car_available, find_car. rewrite fetchone_map_filter.
  destruct (List.find _ (cars d)) as [c|]; simpl; [|repeat split].
  destruct (c_available c); simpl; repeat split.
Qed.

(** C1.  For every customer id and car id, [book_car] runs in one
    transaction: whatever fails on the way it returns, having either done
    both of its writes or none.  When the database answers, it does what
    the specification lists, in that order: AlreadyBooked if the customer
    has an active booking; otherwise CarNotFound if no car row has the id;
    otherwise CarUnavailable if the car's available flag is false;
    otherwise a booking row with active=true and start_date=now is
    inserted, the car's available flag is set to false, and the new
    booking id is returned. *)
Theorem book_car_sequence (w : World) (customer_id car_id : Z) :
  let r := book_car customer_id car_id w in
  let d := w_db w in
  ((fst r = Ret (ok_id (bookings_seq d)) /\
    w_db (snd r) = booked customer_id car_id (w_now w) d) \/
   (exists msg, fst r = Ret (failure msg) /\ w_db (snd r) = d)) /\
  (backend_up w ->
   fst r = Ret (fst (spec_book_car customer_id car_id (w_now w) d)) /\
   w_db (snd r) = snd (spec_book_car customer_id car_id (w_now w) d)).
Proof.
  split.
  - pose proof (book_car_atomic (w_now w) (w_db w) (w_txn w) customer_id
                  car_id w eq_refl eq_refl eq_refl) as H.
    destruct (book_car customer_id car_id w) as [[r|e] w']; simpl;
      destruct H as [_ H]; [|contradiction].
    destruct H as [[-> ->]|(msg & -> & ->)]; [left|right; exists msg];
      split; reflexivity.
  - intros Hup.
    destruct (book_car_up w customer_id car_id Hup) as (H1 & H2 & _).
    split; assumption.
Qed.

Lemma book_car_sequence_witness :
  backend_up demo_world /\
  fst (book_car 1 5 demo_world) = Ret (ok_id 1) /\
  bookings (w_db (snd (book_car 1 5 demo_world))) =
  [mkBooking 1 1 5 1000 None true false].
Proof.
  split; [reflexivity|].
  destruct (book_car_sequence demo_world 1 5) as [_ H].
  destruct (H eq_refl) as [H1 H2]. split; [exact H1|].
  rewrite H2. reflexivity.
Defined.
Lemma find_app_fresh {A} (p : A -> bool) (l : list A) (y : A) :
  (forall x, In x l -> p x = false) ->
  List.find p (l ++ [y]) = if p y then Some y else None.
Proof.
  induction l as [|x l IH]; simpl; intros H; [reflexivity|].
  rewrite (H x (or_introl eq_refl)). apply IH. intros z Hz. apply H. now right.
Qed.

Lemma return_car_up w booking_id :
  backend_up w ->
  let r := return_car booking_id w in
  fst r = Ret (fst (spec_return_car booking_id (w_now w) (w_db w))) /\
  w_db (snd r) = snd (spec_return_car booking_id (w_now w) (w_db w)) /\
  backend_up (snd r).
Proof.
  intros Hup. up w.
  unfold return_car, try_except, with_connection, get_connection, execute,
    commit, bind, backend, query, update, ret, spec_return_car; simpl.
  unfold sql_car_of_active_booking. rewrite fetchone_map_filter.
  destruct (List.find _ (bookings d)) as [b|]; simpl; repeat split.
Qed.

Lemma car_ids_set_available car_id v l :
  List.map c_id
    (List.map (fun c => if c_id c =? car_id then set_available v c else c) l) =
  List.map c_id l.
Proof.
  induction l as [|c l IH]; simpl; [reflexivity|].
  rewrite IH. destruct (c_id c =? car_id); reflexivity.
Qed.

(** C4.  A successful [book_car] followed by [return_car] on the booking
    id it returned leaves the car available again and the booking row
    inactive with its end_date set: [return_car] succeeds and does what
    the specification says of it; the car row is still there and has
    available=true, no car row is added or removed, and every other car
    row is as the booking left it; the booking row is there, inactive,
    with the time of the return as its end_date.  And [return_car] fails
    with BookingNotFound, changing nothing, when no booking with the id is
    active. *)
Theorem return_after_book (w w1 : World)
  (customer_id car_id t2 bid bid' : Z) :
  (backend_up w -> booking_ids_fresh (w_db w) ->
   book_car customer_id car_id w = (Ret (ok_id bid), w1) ->
   let r := return_car bid (set_now t2 w1) in
   fst r = Ret (ok_msg "Car returned successfully.") /\
   (forall c, In c (cars (w_db (snd r))) -> c_id c = car_id ->
              c_available c = true) /\
   (exists b, In b (bookings (w_db (snd r))) /\ b_id b = bid) /\
   (forall b, In b (bookings (w_db (snd r))) -> b_id b = bid ->
              b_active b = false /\ b_end_date b = Some t2) /\
   (exists c, In c (cars (w_db (snd r))) /\ c_id c = car_id /\
              c_available c = true) /\
   List.map c_id (cars (w_db (snd r))) = List.map c_id (cars (w_db w)) /\
   (forall c, In c (cars (w_db w)) -> c_id c <> car_id ->
              In c (cars (w_db (snd r)))) /\
   fst r = Ret (fst (spec_return_car bid t2 (w_db w1))) /\
   w_db (snd r) = snd (spec_return_car bid t2 (w_db w1))) /\
  (backend_up w ->
   (forall b, In b (bookings (w_db w)) -> b_id b = bid' ->
              b_active b = false) ->
   let r := return_car bid' w in
   fst r = Ret (failure BookingNotFound) /\ w_db (snd r) = w_db w).
Proof.
  split.
  - intros Hup Hfresh Hbook.
    destruct (book_car_up w customer_id car_id Hup) as (H1 & H2 & H3).
    rewrite Hbook in H1, H2, H3. simpl in H1, H2, H3.
    assert (Hup1 : backend_up (set_now t2 w1)) by exact H3.
    destruct (return_car_up (set_now t2 w1) bid Hup1) as (R1 & R2 & _).
    simpl in R1, R2. cbv zeta. rewrite R1, R2. clear R1 R2 Hup1 H3 Hbook.
    revert H1 H2. unfold spec_book_car.
    destruct (existsb _ _); [discriminate|].
    destruct (find_car car_id (w_db w)) as [c0|] eqn:Hfind; [|discriminate].
    destruct (negb (c_available c0)); [discriminate|]. simpl.
    intros Hid Hdb. injection Hid as ->. rewrite Hdb.
    unfold spec_return_car. simpl.
    rewrite find_app_fresh.
    2:{ intros b Hb. apply Hfresh in Hb.
        replace (b_id b =? bookings_seq (w_db w)) with false; [reflexivity|].
        symmetry. apply Z.eqb_neq. lia. }
    simpl. rewrite Z.eqb_refl. simpl.
    apply find_some in Hfind. destruct Hfind as [Hin0 Hid0].
    apply Z.eqb_eq in Hid0.
    split; [reflexivity|].
    split; [|split; [|split; [|split; [|split; [|split; [|split]]]]]].
    + intros c Hc Hid. apply in_map_iff in Hc. destruct Hc as (c1 & <- & Hc1).
      apply in_map_iff in Hc1. destruct Hc1 as (c2 & <- & Hc2).
      revert Hid. destruct (c_id c2 =? car_id) eqn:E2; simpl.
      * rewrite E2. reflexivity.
      * rewrite E2. intros Hid. apply Z.eqb_neq in E2. contradiction.
    + eexists. split.
      * apply in_map_iff. eexists. split; [reflexivity|].
        apply in_or_app. right. left. reflexivity.
      * simpl. rewrite Z.eqb_refl. reflexivity.
    + intros b Hb Hid. apply in_map_iff in Hb. destruct Hb as (b1 & <- & _).
      revert Hid. destruct (b_id b1 =? bookings_seq (w_db w)) eqn:E1.
      * intros _. split; reflexivity.
      * intros Hid. apply Z.eqb_neq in E1. contradiction.
    + exists (set_available true (set_available false c0)).
      split; [|split; [exact Hid0|reflexivity]].
      apply in_map_iff. exists (set_available false c0). split.
      * simpl. apply Z.eqb_eq in Hid0. rewrite Hid0. reflexivity.
      * apply in_map_iff. exists c0. split; [|exact Hin0].
        apply Z.eqb_eq in Hid0. rewrite Hid0. reflexivity.
    + rewrite !car_ids_set_available. reflexivity.
    + intros c Hc Hne. apply in_map_iff. exists c.
      apply Z.eqb_neq in Hne. split.
      * rewrite Hne. reflexivity.
      * apply in_map_iff. exists c. rewrite Hne. split; [reflexivity|exact Hc].
    + reflexivity.
    + reflexivity.
  - intros Hup Hnone.
    destruct (return_car_up w bid' Hup) as (R1 & R2 & _).
    cbv zeta. rewrite R1, R2. unfold spec_return_car.
    destruct (List.find _ _) as [b|] eqn:Hf; [|split; reflexivity].
    apply find_some in Hf. destruct Hf as [Hin Hp].
    apply andb_true_iff in Hp. destruct Hp as [Hid Ha].
    rewrite (Hnone b Hin) in Ha; [discriminate|lia].
Qed.

Lemma return_after_book_witness :
  let w1 := snd (book_car 1 5 demo_world) in
  let r := return_car 1 (set_now 2000 w1) in
  fst r = Ret (ok_msg "Car returned successfully.") /\
  (exists c, In c (cars (w_db (snd r))) /\ c_id c = 5 /\
             c_available c = true) /\
  cars (w_db (snd r)) = cars demo_db /\
  bookings (w_db (snd r)) = [mkBooking 1 1 5 1000 (Some 2000) false false] /\
  fst (return_car 9 demo_world) = Ret (failure BookingNotFound).
Proof.
  intros w1 r.
  destruct (return_after_book demo_world w1 1 5 2000 1 9) as [H1 H2].
  assert (U : backend_up demo_world) by reflexivity.
  assert (F : booking_ids_fresh (w_db demo_world)) by (intros b []).
  assert (B : book_car 1 5 demo_world = (Ret (ok_id 1), w1)).
  { unfold w1. destruct (book_car 1 5 demo_world) as [o w'] eqn:E.
    simpl. f_equal.
    change o with (fst (o, w')). rewrite <- E. vm_compute. reflexivity. }
  specialize (H1 U F B).
  assert (N : forall b, In b (bookings (w_db demo_world)) -> b_id b = 9 ->
                        b_active b = false) by (intros b []).
  specialize (H2 U N).
  destruct H1 as (H1 & _ & _ & _ & H1c & _). destruct H2 as (H2 & _).
  split; [exact H1|]. split; [exact H1c|].
  split; [vm_compute; reflexivity|].
  split; [vm_compute; reflexivity|exact H2].
Defined.

(** ** [approve_booking] and [reject_booking] *)

Ltac unfold_run :=
  unfold try_except, with_connection, get_connection, execute, commit, bind,
    backend, query, update, ret; simpl.

Lemma approve_booking_up w booking_id :
  backend_up w ->
  let r := approve_booking booking_id w in
  fst r = Ret (fst (spec_approve_booking booking_id (w_db w))) /\
  w_db (snd r) = snd (spec_approve_booking booking_id (w_db w)).
Proof.
  intros Hup. up w. unfold approve_booking, spec_approve_booking. unfold_run.
  unfold sql_pending_booking. rewrite fetchone_map_filter.
  destruct (List.find _ (bookings d)) as [b|]; simpl; repeat split.
Qed.

Lemma reject_booking_up w booking_id :
  backend_up w ->
  let r := reject_booking booking_id w in
  fst r = Ret (fst (spec_reject_booking booking_id (w_db w))) /\
  w_db (snd r) = snd (spec_reject_booking booking_id (w_db w)).
Proof.
  intros Hup. up w. unfold reject_booking, spec_reject_booking. unfold_run.
  unfold sql_pending_booking. rewrite fetchone_map_filter.
  destruct (List.find _ (bookings d)) as [b|]; simpl; repeat split.
Qed.

(** C5.  For every booking id, [approve_booking] and [reject_booking]
    do what the specification says of them when the database answers:
    they fail with NotFoundOrProcessed unless a booking with the id has
    pending=true; [approve_booking] then clears the pending flag and sets
    the available flag of the booked car to false; [reject_booking]
    deletes the booking row, so that no row with the id is left, and
    leaves the cars as they are. *)
Theorem approve_reject_pending_only (w : World) (booking_id : Z) :
  backend_up w ->
  let a := approve_booking booking_id w in
  let r := reject_booking booking_id w in
  let d := w_db w in
  (fst a = Ret (fst (spec_approve_booking booking_id d)) /\
   w_db (snd a) = snd (spec_approve_booking booking_id d)) /\
  (fst r = Ret (fst (spec_reject_booking booking_id d)) /\
   w_db (snd r) = snd (spec_reject_booking booking_id d)) /\
  (fst a = Ret (ok_msg "Booking approved successfully.") ->
   (forall b, In b (bookings (w_db (snd a))) -> b_id b = booking_id ->
              b_pending b = false) /\
   exists b, In b (bookings d) /\ b_id b = booking_id /\
             b_pending b = true /\
             forall c, In c (cars (w_db (snd a))) -> c_id c = b_car_id b ->
                       c_available c = false) /\
  (fst r = Ret (ok_msg "Booking rejected successfully.") ->
   (exists b, In b (bookings d) /\ b_id b = booking_id /\
              b_pending b = true) /\
   (forall b, In b (bookings (w_db (snd r))) -> b_id b <> booking_id) /\
   cars (w_db (snd r)) = cars d).
Proof.
  intros Hup a r d.
  destruct (approve_booking_up w booking_id Hup) as [A1 A2].
  destruct (reject_booking_up w booking_id Hup) as [R1 R2].
  fold a in A1, A2. fold r in R1, R2. fold d in A1, A2, R1, R2.
  split; [split; assumption|]. split; [split; assumption|].
  split.
  - rewrite A1, A2. unfold spec_approve_booking.
    destruct (List.find _ (bookings d)) as [b|] eqn:Hf; simpl;
      [intros _|discriminate].
    apply find_some in Hf. destruct Hf as [Hin Hp].
    apply andb_true_iff in Hp. destruct Hp as [Hid Hpen].
    split.
    + intros x Hx Hxid. apply in_map_iff in Hx. destruct Hx as (y & <- & _).
      revert Hxid. destruct (b_id y =? booking_id) eqn:E; [reflexivity|].
      intros Hy. apply Z.eqb_neq in E. contradiction.
    + exists b. split; [exact Hin|]. split; [lia|]. split; [exact Hpen|].
      intros c Hc Hcid. apply in_map_iff in Hc. destruct Hc as (y & <- & _).
      revert Hcid. destruct (c_id y =? b_car_id b) eqn:E; [reflexivity|].
      intros Hy. apply Z.eqb_neq in E. contradiction.
  - rewrite R1, R2. unfold spec_reject_booking.
    destruct (List.find _ (bookings d)) as [b|] eqn:Hf; simpl;
      [intros _|discriminate].
    apply find_some in Hf. destruct Hf as [Hin Hp].
    apply andb_true_iff in Hp. destruct Hp as [Hid Hpen].
    split; [exists b; split; [exact Hin|split; [lia|exact Hpen]]|].
    split; [|reflexivity].
    intros x Hx. apply filter_In in Hx. destruct Hx as [_ Hx].
    apply negb_true_iff, Z.eqb_neq in Hx. exact Hx.
Qed.

Lemma approve_reject_pending_only_witness :
  let w := world_of demo_db_pending 1000 in
  backend_up w /\
  fst (approve_booking 9 w) = Ret (ok_msg "Booking approved successfully.") /\
  fst (reject_booking 9 w) = Ret (ok_msg "Booking rejected successfully.") /\
  fst (approve_booking 8 w) = Ret (failure NotFoundOrProcessed) /\
  (forall b, In b (bookings (w_db (snd (reject_booking 9 w)))) ->
             b_id b <> 9) /\
  cars (w_db (snd (reject_booking 9 w))) = cars demo_db_pending.
Proof.
  intros w. split; [reflexivity|].
  pose proof (approve_reject_pending_only w 9 eq_refl) as H.
  pose proof (approve_reject_pending_only w 8 eq_refl) as H8.
  cbv zeta in H, H8.
  destruct H as ((A1 & _) & (R1 & _) & HA & HR).
  destruct H8 as ((A8 & _) & _).
  destruct (HA eq_refl) as [_ _].
  destruct (HR eq_refl) as (_ & HR2 & HR3).
  split; [exact A1|]. split; [exact R1|]. split; [exact A8|].
  split; [exact HR2|exact HR3].
Defined.

(** ** [delete_dealer] and [admin_delete_booking] *)

Lemma delete_dealer_up w dealer_id :
  backend_up w ->
  let r := delete_dealer dealer_id w in
  fst r = Ret (fst (spec_delete_dealer dealer_id (w_db w))) /\
  w_db (snd r) = snd (spec_delete_dealer dealer_id (w_db w)).
Proof.
  intros Hup. up w. unfold delete_dealer, spec_delete_dealer. unfold_run.
  unfold sql_dealer_ids. rewrite fetchone_map_filter.
  destruct (List.find _ (dealers d)) as [x|]; simpl; [|repeat split].
  unfold sql_car_ids_of_dealer.
  destruct (List.map c_id (List.filter _ (cars d))) as [|id ids] eqn:Hids;
    simpl; [|repeat split].
  split; [reflexivity|].
  unfold sql_delete_dealer, sql_delete_cars_of_dealer, set_cars, set_dealers;
    simpl.
  f_equal. symmetry. apply forallb_filter_id. apply forallb_forall.
  intros i _. reflexivity.
Qed.

Lemma admin_delete_booking_up w booking_id :
  backend_up w ->
  let r := admin_delete_booking booking_id w in
  fst r = Ret (fst (spec_admin_delete_booking booking_id (w_db w))) /\
  w_db (snd r) = snd (spec_admin_delete_booking booking_id (w_db w)) /\
  (forall b,
     List.find (fun b => b_id b =? booking_id) (bookings (w_db w)) = Some b ->
     b_active b = true ->
     w_trace (snd r) =
     (w_trace w ++
      [EvConnect; EvExecute SHOW Settings; EvExecute SHOW Settings;
       EvExecute SELECT Bookings; EvExecute UPDATE Cars;
       EvExecute DELETE Bookings; EvCommit])%list).
Proof.
  intros Hup. up w.
  unfold admin_delete_booking, spec_admin_delete_booking. unfold_run.
  unfold sql_booking_car_active. rewrite fetchone_map_filter.
  destruct (List.find _ (bookings d)) as [b|]; simpl.
  - destruct (b_active b) eqn:Ha; simpl; repeat split.
    + intros b' [= <-] _. rewrite <- !app_assoc. reflexivity.
    + intros b' [= <-]. congruence.
  - repeat split. intros b' [=].
Qed.

(** C6, as stated, fails: [delete_dealer] deletes the cars of the dealer
    and leaves the bookings of those cars in the table. *)
Lemma delete_dealer_leaves_bookings :
  let w := world_of demo_db_booked 1000 in
  no_dangling_reference (w_db w) /\
  fst (delete_dealer 1 w) =
    Ret (ok_msg "Dealer and all their cars deleted successfully.") /\
  ~ no_dangling_reference (w_db (snd (delete_dealer 1 w))).
Proof.
  split; [|split].
  - split; [|split]; simpl.
    + intros c [<-|[<-|[]]]; eexists; (split; [left; reflexivity|reflexivity]).
    + intros i [<-|[<-|[]]]; eexists.
      * split; [left; reflexivity|reflexivity].
      * split; [right; left; reflexivity|reflexivity].
    + intros b [<-|[]]. eexists. split; [left; reflexivity|reflexivity].
  - reflexivity.
  - intros (_ & _ & H).
    destruct (H (mkBooking 1 1 5 500 (Some 600) false false)) as (c & Hc & _).
    + left. reflexivity.
    + exact Hc.
Qed.

(** C6, amended.  When the database answers, [delete_dealer] removes the
    dealer row, the cars of the dealer and the images of those cars, so
    that no car row references the dealer and no image row references one
    of the deleted cars; the bookings are not part of the cascade and stay
    as they are.  [admin_delete_booking] on an active booking sets the
    available flag of the booked car to true with an UPDATE that precedes
    the DELETE of the booking row, after which no row has the id. *)
Theorem delete_cascade (w : World) (dealer_id booking_id : Z) :
  backend_up w ->
  let d := w_db w in
  let r := delete_dealer dealer_id w in
  let a := admin_delete_booking booking_id w in
  (fst r = Ret (fst (spec_delete_dealer dealer_id d)) /\
   w_db (snd r) = snd (spec_delete_dealer dealer_id d)) /\
  (fst r = Ret (ok_msg "Dealer and all their cars deleted successfully.") ->
   (forall x, In x (dealers (w_db (snd r))) -> d_id x <> dealer_id) /\
   (forall c, In c (cars (w_db (snd r))) -> c_dealer_id c <> dealer_id) /\
   (forall c i, In c (cars d) -> c_dealer_id c = dealer_id ->
                In i (car_images (w_db (snd r))) -> i_car_id i <> c_id c) /\
   bookings (w_db (snd r)) = bookings d) /\
  (fst a = Ret (fst (spec_admin_delete_booking booking_id d)) /\
   w_db (snd a) = snd (spec_admin_delete_booking booking_id d)) /\
  (forall b,
     List.find (fun b => b_id b =? booking_id) (bookings d) = Some b ->
     b_active b = true ->
     fst a = Ret (ok_msg "Booking deleted successfully.") /\
     (forall c, In c (cars (w_db (snd a))) -> c_id c = b_car_id b ->
                c_available c = true) /\
     (forall x, In x (bookings (w_db (snd a))) -> b_id x <> booking_id) /\
     w_trace (snd a) =
     (w_trace w ++
      [EvConnect; EvExecute SHOW Settings; EvExecute SHOW Settings;
       EvExecute SELECT Bookings; EvExecute UPDATE Cars;
       EvExecute DELETE Bookings; EvCommit])%list).
Proof.
  intros Hup d r a.
  destruct (delete_dealer_up w dealer_id Hup) as [R1 R2].
  destruct (admin_delete_booking_up w booking_id Hup) as (A1 & A2 & A3).
  fold r in R1, R2. fold a in A1, A2, A3. fold d in R1, R2, A1, A2, A3.
  split; [split; assumption|]. split; [|split; [split; assumption|]].
  - rewrite R1, R2. unfold spec_delete_dealer.
    destruct (List.find _ (dealers d)); simpl; [intros _|discriminate].
    split; [|split; [|split; [|reflexivity]]].
    + intros x Hx. apply filter_In in Hx. destruct Hx as [_ Hx].
      apply negb_true_iff, Z.eqb_neq in Hx. exact Hx.
    + intros c Hc. apply filter_In in Hc. destruct Hc as [_ Hc].
      apply negb_true_iff, Z.eqb_neq in Hc. exact Hc.
    + intros c i Hc Hcd Hi Heq. apply filter_In in Hi. destruct Hi as [_ Hi].
      apply negb_true_iff in Hi.
      assert (Hm : mem (i_car_id i)
                     (List.map c_id
                        (List.filter (fun c => c_dealer_id c =? dealer_id)
                                     (cars d))) = true).
      { unfold mem. apply existsb_exists. exists (c_id c). split.
        - apply in_map. apply filter_In. split; [exact Hc|lia].
        - lia. }
      congruence.
  - intros b Hf Ha. rewrite A1, A2. unfold spec_admin_delete_booking.
    rewrite Hf, Ha. simpl. split; [reflexivity|]. split; [|split].
    + intros c Hc Hcid. apply in_map_iff in Hc. destruct Hc as (y & <- & _).
      revert Hcid. destruct (c_id y =? b_car_id b) eqn:E; [reflexivity|].
      intros Hy. apply Z.eqb_neq in E. contradiction.
    + intros x Hx. apply filter_In in Hx. destruct Hx as [_ Hx].
      apply negb_true_iff, Z.eqb_neq in Hx. exact Hx.
    + exact (A3 b Hf Ha).
Qed.

Lemma delete_cascade_witness :
  let w := world_of demo_db_active 1000 in
  backend_up w /\
  fst (delete_dealer 1 w) =
    Ret (ok_msg "Dealer and all their cars deleted successfully.") /\
  cars (w_db (snd (delete_dealer 1 w))) = [] /\
  bookings (w_db (snd (delete_dealer 1 w))) = bookings demo_db_active /\
  fst (admin_delete_booking 1 w) = Ret (ok_msg "Booking deleted successfully.") /\
  (forall c, In c (cars (w_db (snd (admin_delete_booking 1 w)))) ->
             c_id c = 5 -> c_available c = true).
Proof.
  intros w. split; [reflexivity|].
  pose proof (delete_cascade w 1 1 eq_refl) as H. cbv zeta in H.
  destruct H as ((R1 & R2) & HR & _ & HA).
  destruct (HR eq_refl) as (_ & _ & _ & HB).
  destruct (HA (mkBooking 1 1 5 500 None true false) eq_refl eq_refl)
    as (A1 & A2 & _ & _).
  split; [exact R1|]. split; [rewrite R2; reflexivity|].
  split; [exact HB|]. split; [exact A1|exact A2].
Defined.

(** ** [retry_on_db_error] *)

(** C7, as stated, fails: under a connection that fails every time,
    [book_car], which has no decorator, and [register_customer], whose
    body catches the failure itself, both return their failure result
    after one attempt to connect and without a delay. *)
Lemma one_attempt_on_connection_failure :
  let w :=
    set_backend
      [Some OperationalError; Some OperationalError; Some OperationalError]
      demo_world in
  (fst (book_car 1 5 w) = Ret (failure BackendFailure) /\
   w_trace (snd (book_car 1 5 w)) = [EvConnect]) /\
  (fst (register_customer 300 "Cy" w) = Ret None /\
   w_trace (snd (register_customer 300 "Cy" w)) = [EvConnect]).
Proof. repeat split. Qed.

(** C7, amended.  The wrapper calls the operation at most [MAX_RETRIES] = 3
    times: a result is returned at once, an error other than a connection
    error is raised at once, a connection error is followed by a delay of
    [RETRY_DELAY] = 1 second and the next attempt, and the connection error
    of the third attempt is raised to the caller.  An operation without
    the wrapper, such as [book_car], makes one attempt: when connecting
    fails with a connection error it returns its failure result, with no
    delay and no second attempt. *)
Theorem retry_bounded {A} (func : M A) (w : World)
  (customer_id car_id : Z) (e : exn) (rest : list (option exn)) :
  retry_on_db_error func w =
  match func w with
  | (Ret a, w1) => (Ret a, w1)
  | (Raise e1, w1) =>
      if is_connection_error e1 then
        match func (log (EvSleep RETRY_DELAY) w1) with
        | (Ret a, w2) => (Ret a, w2)
        | (Raise e2, w2) =>
            if is_connection_error e2 then
              match func (log (EvSleep RETRY_DELAY) w2) with
              | (Ret a, w3) => (Ret a, w3)
              | (Raise e3, w3) => (Raise e3, w3)
              end
            else (Raise e2, w2)
        end
      else (Raise e1, w1)
  end /\
  (w_backend w = Some e :: rest -> is_connection_error e = true ->
   fst (book_car customer_id car_id w) = Ret (failure BackendFailure) /\
   w_trace (snd (book_car customer_id car_id w)) =
     (w_trace w ++ [EvConnect])%list /\
   w_backend (snd (book_car customer_id car_id w)) = rest /\
   w_db (snd (book_car customer_id car_id w)) = w_db w).
Proof.
  split.
  - unfold retry_on_db_error. simpl.
    destruct (func w) as [[a|e1] w1]; [reflexivity|].
    destruct (is_connection_error e1); [|reflexivity].
    unfold bind, sleep. simpl.
    destruct (func (log (EvSleep RETRY_DELAY) w1)) as [[a|e2] w2];
      [reflexivity|].
    destruct (is_connection_error e2); [|reflexivity].
    unfold bind, sleep. simpl.
    destruct (func (log (EvSleep RETRY_DELAY) w2)) as [[a|e3] w3];
      [reflexivity|].
    destruct (is_connection_error e3); reflexivity.
  - intros Hb He. destruct w as [d t now be tp fsm tr]. simpl in *. subst be.
    unfold book_car. unfold_run.
    destruct e; try discriminate He; simpl; repeat split.
Qed.

Lemma retry_bounded_witness :
  let w :=
    set_backend
      [Some OperationalError; Some InterfaceError; Some OperationalError]
      demo_world in
  fst (retry_on_db_error get_connection w) = Raise OperationalError /\
  w_trace (snd (retry_on_db_error get_connection w)) =
    [EvConnect; EvSleep 1; EvConnect; EvSleep 1; EvConnect] /\
  fst (book_car 1 5 w) = Ret (failure BackendFailure) /\
  w_trace (snd (book_car 1 5 w)) = [EvConnect].
Proof.
  intros w.
  destruct (retry_bounded get_connection w 1 5 OperationalError
              [Some InterfaceError; Some OperationalError]) as [H1 H2].
  destruct (H2 eq_refl eq_refl) as (B1 & B2 & _ & _).
  split; [rewrite H1; reflexivity|]. split; [rewrite H1; reflexivity|].
  split; [exact B1|exact B2].
Defined.

(** ** The time keyboard *)

(** C9.  At 07:00 the start-time keyboard offers the half-hour slots from
    08:00 on and, after 20:00, the slot 20:30 as well: the inner loop
    runs both minutes for the last hour of [range(start_hour, 21)], while
    the comment above the loop and the specification end the slots at
    20:00. *)
Theorem time_keyboard_offers_2030 :
  offered_slots (generate_time_keyboard true 7 0) =
  ["08:00"; "08:30"; "09:00"; "09:30"; "10:00"; "10:30"; "11:00"; "11:30";
   "12:00"; "12:30"; "13:00"; "13:30"; "14:00"; "14:30"; "15:00"; "15:30";
   "16:00"; "16:30"; "17:00"; "17:30"; "18:00"; "18:30"; "19:00"; "19:30";
   "20:00"; "20:30"].
Proof. reflexivity. Qed.

(** ** The handlers and the session *)

(** C8.  A customer in the last step of the wizard confirms the booking
    of car 5; the booking is made, and the call that answers the callback
    query fails.  The handler ends in its [except] branch, which sends the
    error message and leaves the session as it was: the state is still
    [confirming_booking] and every wizard field is still there.  The
    sibling [process_refreshed_car_photo] clears the session in the same
    situation. *)
Theorem confirm_booking_error_keeps_session :
  let k := (100, 100) in
  let session :=
    mkSession (Some confirming_booking)
      (<["car_id" := VInt 5]>
         (<["start_datetime" := VStr "2026-01-01 10:00"]>
            (<["end_datetime" := VStr "2026-01-02 10:00"]> ∅))) in
  let w :=
    set_transport [Some TelegramAPIError]
      (set_fsm (<[k := session]> ∅) demo_world) in
  let u := mkUpdate 100 100 "confirm_booking_5" false None in
  let w' := snd (confirm_booking_handler u w) in
  fst (confirm_booking_handler u w) = Ret tt /\
  bookings (w_db w') = [mkBooking 1 1 5 1000 None true false] /\
  s_state (session_of k w') = Some confirming_booking /\
  s_data (session_of k w') !! "car_id" = Some (VInt 5) /\
  s_data (session_of k w') !! "start_datetime" =
    Some (VStr "2026-01-01 10:00") /\
  s_data (session_of k w') !! "end_datetime" =
    Some (VStr "2026-01-02 10:00") /\
  let dealer_session :=
    mkSession (Some refreshing_car_photo) (<["refresh_car_id" := VInt 5]> ∅) in
  let wd :=
    set_transport [Some TelegramAPIError]
      (set_fsm (<[(77, 900) := dealer_session]> ∅) demo_world) in
  let ud := mkUpdate 77 900 "" false (Some "photo-new") in
  session_of (77, 900) (snd (process_refreshed_car_photo 77 ud wd)) =
  empty_session.
Proof. vm_compute. repeat split. Qed.

(** ** Invariants of the bookings table under the operations *)

Lemma runs_retry_loop {A} (I : DB -> Prop) (func : M A) :
  (forall now d t, I d -> runs now d t func (fun _ d' _ => I d') I) ->
  forall fuel retries last now d t, I d ->
    runs now d t (retry_loop fuel func retries last) (fun _ d' _ => I d') I.
Proof.
  intros Hf fuel. induction fuel as [|fuel IH]; intros retries last now d t Hd.
  - simpl. destruct (retries <? MAX_RETRIES).
    + apply runs_raise. exact Hd.
    + destruct last; apply runs_raise; exact Hd.
  - simpl. destruct (retries <? MAX_RETRIES).
    + intros w Hn Hw Ht. specialize (Hf now d t Hd w Hn Hw Ht).
      destruct (func w) as [[a|e] w1]; [exact Hf|].
      destruct Hf as [Hn1 Hd1].
      destruct (is_connection_error e); [|split; assumption].
      unfold bind.
      destruct (retries + 1 <? MAX_RETRIES); simpl.
      * apply (IH _ _ now (w_db w1) (w_txn w1) Hd1); reflexivity || assumption.
      * apply (IH _ _ now (w_db w1) (w_txn w1) Hd1); reflexivity || assumption.
    + destruct last; apply runs_raise; exact Hd.
Qed.

Section Invariant.

(** A property [I] of the database that looks at the bookings only, that
    deleting a booking and clearing a pending flag keep, that closing a
    booking keeps when the booking may be returned, and that the INSERT of
    [book_car] keeps for a customer without an active booking. *)
Variable I : DB -> Prop.
Variable may_return : Z -> Prop.
Hypothesis I_bookings : forall d d', bookings d' = bookings d -> I d -> I d'.
Hypothesis I_delete : forall d b, I d -> I (sql_delete_booking b d).
Hypothesis I_pending : forall d b, I d -> I (sql_clear_pending b d).
Hypothesis I_close :
  forall d b now, may_return b -> I d -> I (snd (sql_close_booking b now d)).
Hypothesis I_insert :
  forall d c k now,
    fetchone (sql_active_bookings_of c d) = None -> I d ->
    I (snd (sql_insert_booking c k now d)).

Ltac same_bookings :=
  match goal with
  | H : I ?d |- I _ => apply (I_bookings d); [reflexivity|exact H]
  end.

Ltac keeps :=
  repeat runs_step; simpl;
  first [ assumption
        | same_bookings
        | eapply I_bookings; [|apply I_delete; eassumption]; reflexivity
        | eapply I_bookings; [|apply I_pending; eassumption]; reflexivity
        | idtac ].

Lemma run_op_keeps (o : op) now d t :
  allowed may_return o -> I d ->
  runs now d t (run_op o) (fun _ d' _ => I d') I.
Proof.
  intros Ha Hd. destruct o; simpl in Ha; unfold run_op; apply runs_bind.
  - (* register_customer *)
    eapply runs_conseq.
    + apply (runs_retry_loop I); [|exact Hd].
      intros now' d' t' Hd'. unfold register_customer_body. keeps.
    + intros a d' t' H. apply runs_ret. exact H.
    + auto.
  - (* book_car *)
    unfold book_car. keeps.
    eapply I_bookings; [|eapply (I_insert d customer_id car_id now)];
      [reflexivity|eassumption|exact Hd].
  - (* return_car *)
    unfold return_car. keeps.
    eapply I_bookings;
      [|apply (I_close d booking_id now Ha Hd)]; reflexivity.
  - unfold approve_booking. keeps.
  - unfold reject_booking. keeps.
  - unfold admin_delete_booking. keeps.
  - unfold add_dealer. keeps.
  - unfold delete_dealer. keeps.
  - unfold add_dealer_car. keeps.
  - unfold delete_dealer_car. keeps.
  - unfold update_car_image. keeps.
  - unfold refresh_car_image. keeps.
Qed.

Lemma run_ops_keeps (os : list (Z * op)) :
  Forall (fun to => allowed may_return (snd to)) os ->
  forall w, I (w_db w) -> I (w_db (snd (run_ops os w))).
Proof.
  induction os as [|[t o] os IH]; intros Hall w Hw; [exact Hw|].
  inversion Hall as [|? ? Ho Hos]; subst. simpl in Ho.
  simpl. unfold bind at 1. unfold at_time at 1.
  unfold bind at 1.
  pose proof (run_op_keeps o t (w_db w) (w_txn w) Ho Hw (set_now t w)
                eq_refl eq_refl eq_refl) as H.
  destruct (run_op o (set_now t w)) as [[[]|e] w1]; destruct H as [_ H].
  - apply IH; assumption.
  - exact H.
Qed.

End Invariant.

(** ** At most one active booking per customer *)

Lemma active_count_app c bs b :
  active_count c (bs ++ [b]) =
  (active_count c bs +
   (if ((b_customer_id b =? c)%Z && b_active b)%bool then 1 else 0))%nat.
Proof.
  unfold active_count. rewrite List.filter_app, List.length_app. simpl.
  destruct ((b_customer_id b =? c) && b_active b); reflexivity.
Qed.

Lemma active_count_filter c p bs :
  (active_count c (List.filter p bs) <= active_count c bs)%nat.
Proof.
  unfold active_count. induction bs as [|b bs IH]; simpl; [lia|].
  destruct (p b); simpl;
    destruct ((b_customer_id b =? c) && b_active b); simpl; lia.
Qed.

Lemma active_count_map c f bs :
  (forall b, b_customer_id (f b) = b_customer_id b) ->
  (forall b, b_active (f b) = true -> b_active b = true) ->
  (active_count c (List.map f bs) <= active_count c bs)%nat.
Proof.
  intros Hc Ha. unfold active_count.
  induction bs as [|b bs IH]; simpl; [lia|].
  rewrite Hc. destruct (b_customer_id b =? c); simpl; [|exact IH].
  destruct (b_active (f b)) eqn:E; simpl.
  - rewrite (Ha b E). simpl. lia.
  - destruct (b_active b); simpl; lia.
Qed.

Lemma no_active_count c d :
  fetchone (sql_active_bookings_of c d) = None ->
  active_count c (bookings d) = 0%nat.
Proof.
  unfold sql_active_bookings_of, active_count, fetchone.
  destruct (List.filter _ (bookings d)); [reflexivity|discriminate].
Qed.

Lemma one_active_bookings d d' :
  bookings d' = bookings d -> one_active_booking d -> one_active_booking d'.
Proof. intros E H c. rewrite E. apply H. Qed.

Lemma one_active_delete d b :
  one_active_booking d -> one_active_booking (sql_delete_booking b d).
Proof.
  intros H c. simpl.
  pose proof (active_count_filter c (fun x => negb (b_id x =? b)) (bookings d)).
  specialize (H c). lia.
Qed.

Lemma one_active_pending d b :
  one_active_booking d -> one_active_booking (sql_clear_pending b d).
Proof.
  intros H c. simpl. specialize (H c).
  pose proof (active_count_map c
                (fun x => if b_id x =? b then set_pending false x else x)
                (bookings d)) as Hm.
  etransitivity; [apply Hm|exact H];
    intros x; destruct (b_id x =? b); auto.
Qed.

Lemma one_active_close d b now :
  one_active_booking d ->
  one_active_booking (snd (sql_close_booking b now d)).
Proof.
  intros H c. simpl. specialize (H c).
  etransitivity; [apply active_count_map|exact H];
    intros x; destruct (b_id x =? b); simpl; auto.
  discriminate.
Qed.

Lemma one_active_insert d c k now :
  fetchone (sql_active_bookings_of c d) = None ->
  one_active_booking d ->
  one_active_booking (snd (sql_insert_booking c k now d)).
Proof.
  intros Hnone H c'. simpl. rewrite active_count_app. simpl.
  destruct (c =? c') eqn:E; simpl.
  - apply Z.eqb_eq in E. subst c'. rewrite (no_active_count c d Hnone). lia.
  - specialize (H c'). lia.
Qed.

(** C3.  From a database in which every customer has at most one active
    booking, after any number of the operations of a sequence of engine
    operations (each at its time, whatever fails on the way), every
    customer has at most one active booking. *)
Theorem one_active_booking_kept (os : list (Z * op)) (w : World) (n : nat) :
  one_active_booking (w_db w) ->
  one_active_booking (w_db (snd (run_ops (firstn n os) w))).
Proof.
  intros H.
  apply (run_ops_keeps one_active_booking (fun _ => True)
           one_active_bookings one_active_delete one_active_pending
           (fun d b now _ => one_active_close d b now) one_active_insert).
  - apply Forall_forall. intros [t o] _. destruct o; exact I.
  - exact H.
Qed.

Lemma one_active_booking_kept_witness :
  let os :=
    [(1000, BookCar 1 5); (1001, BookCar 1 7); (1002, BookCar 2 5);
     (1003, ReturnCar 1); (1004, BookCar 1 7); (1005, DeleteDealer 1)] in
  one_active_booking (w_db demo_world) /\
  one_active_booking (w_db (snd (run_ops os demo_world))) /\
  List.map b_active (bookings (w_db (snd (run_ops os demo_world)))) =
  [false; true].
Proof.
  intros os.
  assert (H0 : one_active_booking (w_db demo_world)).
  { intros c. simpl. unfold active_count. simpl. lia. }
  split; [exact H0|]. split.
  - exact (one_active_booking_kept os demo_world 6 H0).
  - reflexivity.
Defined.

(** ** Calls of [book_car] for the same car *)

(** C2, as stated, fails: two calls for car 5 that both pass their checks
    before either of them writes both succeed.  The schedule switches
    between the calls after the availability check and after the INSERT
    only. *)
Lemma interleaved_calls_both_succeed :
  let calls := [mkCall 1 5 AtStart; mkCall 2 5 AtStart] in
  let r := run_schedule 1000 [0; 0; 1; 1; 0; 1; 0; 1]%nat calls demo_db in
  List.map k_pc (fst r) = [Finished (ok_id 1); Finished (ok_id 2)] /\
  length (List.filter call_succeeded (fst r)) = 2%nat /\
  List.map (fun b => (b_customer_id b, b_car_id b, b_active b))
           (bookings (snd r)) = [(1, 5, true); (2, 5, true)].
Proof. vm_compute. repeat split. Qed.

Lemma find_car_set_available car_id v l :
  List.find (fun c => c_id c =? car_id)
    (List.map (fun c => if c_id c =? car_id then set_available v c else c) l) =
  option_map (set_available v) (List.find (fun c => c_id c =? car_id) l).
Proof.
  induction l as [|c l IH]; simpl; [reflexivity|].
  destruct (c_id c =? car_id) eqn:E; simpl; rewrite E; [reflexivity|exact IH].
Qed.

(** What one call does to a database in which the car exists. *)
Lemma spec_book_car_existing customer_id car_id now d c :
  find_car car_id d = Some c ->
  let s := spec_book_car customer_id car_id now d in
  (succeeded (fst s) = false /\
   (fst s = failure AlreadyBooked \/ fst s = failure CarUnavailable) /\
   snd s = d) \/
  (succeeded (fst s) = true /\ c_available c = true /\
   find_car car_id (snd s) = Some (set_available false c)).
Proof.
  intros Hc. unfold spec_book_car. rewrite Hc.
  destruct (existsb _ _); simpl; [left; auto|].
  destruct (c_available c) eqn:Ha; simpl; [|left; auto].
  right. split; [reflexivity|]. split; [reflexivity|].
  unfold find_car in *. simpl. rewrite find_car_set_available, Hc.
  reflexivity.
Qed.

Lemma book_each_cons car_id c cs w :
  book_each car_id (c :: cs) w =
  match book_car c car_id w with
  | (Ret r, w1) =>
      match book_each car_id cs w1 with
      | (Ret rs, w2) => (Ret (r :: rs), w2)
      | (Raise e, w2) => (Raise e, w2)
      end
  | (Raise e, w1) => (Raise e, w1)
  end.
Proof.
  simpl. unfold bind. destruct (book_car c car_id w) as [[r|e] w1];
    [|reflexivity].
  destruct (book_each car_id cs w1) as [[rs|e] w2]; reflexivity.
Qed.

(** Once the car is taken, every later call fails, with AlreadyBooked or
    CarUnavailable. *)
Lemma book_each_unavailable car_id cs :
  forall w c,
    backend_up w -> find_car car_id (w_db w) = Some c ->
    c_available c = false ->
    exists rs,
      fst (book_each car_id cs w) = Ret rs /\
      length rs = length cs /\
      Forall (fun r => r = failure AlreadyBooked \/
                       r = failure CarUnavailable) rs.
Proof.
  induction cs as [|k cs IH]; intros w c Hup Hc Ha.
  - exists []. repeat split. constructor.
  - rewrite book_each_cons.
    destruct (book_car_up w k car_id Hup) as (B1 & B2 & B3).
    destruct (book_car k car_id w) as [o w1]. simpl in B1, B2, B3. subst o.
    destruct (spec_book_car_existing k car_id (w_now w) (w_db w) c Hc)
      as [(_ & Hf & Hd)|(_ & Ha' & _)]; [|congruence].
    rewrite Hd in B2.
    destruct (IH w1 c B3) as (rs & R1 & R2 & R3);
      [rewrite B2; exact Hc|exact Ha|].
    destruct (book_each car_id cs w1) as [o w2]. simpl in R1. subst o.
    exists (fst (spec_book_car k car_id (w_now w) (w_db w)) :: rs).
    simpl. split; [reflexivity|]. split; [congruence|].
    constructor; assumption.
Qed.

(** C2, amended.  When the calls of [book_car] for an existing car run one
    after the other (each transaction ends before the next begins) and the
    database answers, at most one of them succeeds and every other one
    fails with AlreadyBooked or CarUnavailable.  A call that runs its four
    statements with no other call in between does what [book_car] does. *)
Theorem serial_calls_one_success (w : World) (car_id : Z)
  (customer_ids : list Z) (customer_id : Z) :
  backend_up w ->
  (find_car car_id (w_db w) <> None ->
   exists rs,
     fst (book_each car_id customer_ids w) = Ret rs /\
     length rs = length customer_ids /\
     (length (List.filter succeeded rs) <= 1)%nat /\
     Forall (fun r => succeeded r = true \/ r = failure AlreadyBooked \/
                      r = failure CarUnavailable) rs) /\
  (let r := run_schedule (w_now w) [0; 0; 0; 0]%nat
              [mkCall customer_id car_id AtStart] (w_db w) in
   List.map (fun c => Ret (A := result)
                        match k_pc c with
                        | Finished x => x
                        | _ => failure InternalError
                        end) (fst r) =
   [fst (book_car customer_id car_id w)] /\
   snd r = w_db (snd (book_car customer_id car_id w))).
Proof.
  intros Hup. split.
  - revert w Hup. induction customer_ids as [|k cs IH]; intros w Hup Hc.
    + exists []. repeat split; simpl; auto.
    + destruct (find_car car_id (w_db w)) as [c|] eqn:Hf; [|congruence].
      clear Hc. rewrite book_each_cons.
      destruct (book_car_up w k car_id Hup) as (B1 & B2 & B3).
      destruct (book_car k car_id w) as [o w1]. simpl in B1, B2, B3. subst o.
      destruct (spec_book_car_existing k car_id (w_now w) (w_db w) c Hf)
        as [(Hs & Hm & Hd)|(Hs & Ha & Hc')].
      * rewrite Hd in B2.
        destruct (IH w1 B3) as (rs & R1 & R2 & R3 & R4);
          [rewrite B2, Hf; discriminate|].
        destruct (book_each car_id cs w1) as [o w2]. simpl in R1. subst o.
        exists (fst (spec_book_car k car_id (w_now w) (w_db w)) :: rs).
        simpl. split; [reflexivity|]. split; [congruence|].
        rewrite Hs. split; [exact R3|].
        constructor; [right; exact Hm|exact R4].
      * rewrite <- B2 in Hc'.
        destruct (book_each_unavailable car_id cs w1 _ B3 Hc' eq_refl)
          as (rs & R1 & R2 & R3).
        destruct (book_each car_id cs w1) as [o w2]. simpl in R1. subst o.
        exists (fst (spec_book_car k car_id (w_now w) (w_db w)) :: rs).
        simpl. split; [reflexivity|]. split; [congruence|].
        rewrite Hs. simpl. split.
        -- assert (Hz : List.filter succeeded rs = []).
           { clear - R3. induction R3 as [|r rs Hr _ IHr]; [reflexivity|].
             simpl. destruct Hr as [-> | ->]; simpl; exact IHr. }
           rewrite Hz. simpl. lia.
        -- constructor; [left; exact Hs|].
           revert R3. apply List.Forall_impl. intros r Hr. right. exact Hr.
  - destruct (book_car_up w customer_id car_id Hup) as (B1 & B2 & _).
    cbv zeta in B1, B2. rewrite B1, B2. clear B1 B2.
    unfold spec_book_car, find_car. rewrite find_existsb.
    unfold run_schedule, step_call. simpl.
    unfold sql_active_bookings_of. rewrite !fetchone_map_filter.
    destruct (List.find _ (bookings (w_db w))); simpl;
      [split; reflexivity|].
    unfold sql_car_available. rewrite !fetchone_map_filter.
    destruct (List.find _ (cars (w_db w))) as [c|]; simpl;
      [|split; reflexivity].
    destruct (c_available c); simpl; split; reflexivity.
Qed.

Lemma serial_calls_one_success_witness :
  backend_up demo_world /\
  fst (book_each 5 [1; 2; 1] demo_world) =
    Ret [ok_id 1; failure CarUnavailable; failure AlreadyBooked] /\
  snd (run_schedule 1000 [0; 0; 0; 0]%nat [mkCall 1 5 AtStart] demo_db) =
    w_db (snd (book_car 1 5 demo_world)).
Proof.
  assert (U : backend_up demo_world) by reflexivity.
  destruct (serial_calls_one_success demo_world 5 [1; 2; 1] 1 U) as [H1 H2].
  assert (C : find_car 5 (w_db demo_world) <> None) by (vm_compute; discriminate).
  destruct (H1 C) as (rs & R1 & _).
  destruct H2 as [_ H2].
  split; [exact U|]. split; [vm_compute; reflexivity|exact H2].
Defined.

(** ** What does not depend on the session *)

Lemma oblivious_blind {A} (m : M A) : oblivious m -> blind m.
Proof.
  intros H w1 w2 Ha. destruct (H w1 w2 Ha) as [H1 H2]. split; [|exact H2].
  rewrite H1. destruct (fst (m w2)); simpl; auto.
Qed.

Lemma oblivious_ret {A} (a : A) : oblivious (ret a).
Proof. intros w1 w2 Ha. split; [reflexivity|exact Ha]. Qed.

Lemma oblivious_raise {A} e : oblivious (@raise A e).
Proof. intros w1 w2 Ha. split; [reflexivity|exact Ha]. Qed.

Lemma oblivious_bind {A B} (m : M A) (k : A -> M B) :
  oblivious m -> (forall a, oblivious (k a)) -> oblivious (bind m k).
Proof.
  intros Hm Hk w1 w2 Ha. unfold bind.
  destruct (Hm w1 w2 Ha) as [H1 H2].
  destruct (m w1) as [[a1|e1] v1], (m w2) as [[a2|e2] v2]; simpl in *;
    try discriminate.
  - injection H1 as ->. apply Hk. exact H2.
  - injection H1 as ->. split; [reflexivity|exact H2].
Qed.

(** A computation whose result is not used. *)
Lemma oblivious_bind_blind {A B} (m : M A) (k : M B) :
  blind m -> oblivious k -> oblivious (bind m (fun _ => k)).
Proof.
  intros Hm Hk w1 w2 Ha. unfold bind.
  destruct (Hm w1 w2 Ha) as [H1 H2].
  destruct (m w1) as [[a1|e1] v1], (m w2) as [[a2|e2] v2]; simpl in *;
    try contradiction.
  - apply Hk. exact H2.
  - subst. split; [reflexivity|exact H2].
Qed.

Lemma oblivious_try_except {A} (m : M A) (h : exn -> M A) :
  oblivious m -> (forall e, oblivious (h e)) -> oblivious (try_except m h).
Proof.
  intros Hm Hh w1 w2 Ha. unfold try_except.
  destruct (Hm w1 w2 Ha) as [H1 H2].
  destruct (m w1) as [[a1|e1] v1], (m w2) as [[a2|e2] v2]; simpl in *;
    try discriminate.
  - split; assumption.
  - injection H1 as ->. apply Hh. exact H2.
Qed.

Ltac agree_fields :=
  match goal with
  | H : agree _ _ |- _ =>
      destruct H as (?Hd & ?Ht & ?Hn & ?Hb & ?Hp & ?Hr)
  end.

Lemma oblivious_backend ev : oblivious (backend ev).
Proof.
  intros w1 w2 Ha. agree_fields. unfold backend. rewrite Hb.
  destruct (w_backend w2) as [|[e|] rest] eqn:E; simpl;
    (split; [reflexivity|]); unfold agree; simpl; repeat split;
    congruence.
Qed.

Lemma oblivious_transport ev : oblivious (transport ev).
Proof.
  intros w1 w2 Ha. agree_fields. unfold transport. rewrite Hp.
  destruct (w_transport w2) as [|[e|] rest] eqn:E; simpl;
    (split; [reflexivity|]); unfold agree; simpl; repeat split;
    congruence.
Qed.

Lemma oblivious_execute {A} v tb (stmt : Z -> DB -> A * DB) :
  oblivious (execute v tb stmt).
Proof.
  unfold execute. apply oblivious_bind; [apply oblivious_backend|].
  intros _ w1 w2 Ha. agree_fields. rewrite Hn, Ht.
  destruct (stmt (w_now w2) (w_txn w2)) as [a d']. simpl.
  split; [reflexivity|]. unfold agree. simpl. repeat split; congruence.
Qed.

Lemma oblivious_commit : oblivious commit.
Proof.
  unfold commit. apply oblivious_bind; [apply oblivious_backend|].
  intros _ w1 w2 Ha. agree_fields. simpl.
  split; [reflexivity|]. unfold agree. simpl. repeat split; congruence.
Qed.

Lemma oblivious_get_connection : oblivious get_connection.
Proof.
  unfold get_connection.
  repeat (apply oblivious_bind; [apply oblivious_backend|intros _]).
  apply oblivious_backend.
Qed.

Lemma oblivious_with_connection {A} (body : M A) :
  oblivious body -> oblivious (with_connection body).
Proof.
  intros Hb w1 w2 Ha. unfold with_connection.
  destruct (oblivious_get_connection w1 w2 Ha) as [H1 H2].
  destruct (get_connection w1) as [[[]|e1] v1],
           (get_connection w2) as [[[]|e2] v2]; simpl in *;
    try discriminate.
  - assert (Ha' : agree (set_txn (w_db v1) v1) (set_txn (w_db v2) v2)).
    { destruct H2 as (Hd & Ht & Hn & Hbk & Hp & Hr).
      unfold agree. simpl. repeat split; congruence. }
    destruct (Hb _ _ Ha') as [B1 B2].
    destruct (body (set_txn (w_db v1) v1)) as [[a1|x1] u1],
             (body (set_txn (w_db v2) v2)) as [[a2|x2] u2]; simpl in *;
      try discriminate.
    + split; [exact B1|].
      destruct B2 as (Hd & Ht & Hn & Hbk & Hp & Hr).
      unfold agree. simpl. repeat split; congruence.
    + split; [exact B1|].
      destruct B2 as (Hd & Ht & Hn & Hbk & Hp & Hr).
      unfold agree. simpl. repeat split; congruence.
  - injection H1 as ->. split; [reflexivity|exact H2].
Qed.

Lemma blind_get_data k : blind (get_data k).
Proof. intros w1 w2 Ha. split; [exact I|exact Ha]. Qed.

Lemma oblivious_clear k : oblivious (clear k).
Proof.
  intros w1 w2 Ha. agree_fields. split; [reflexivity|].
  unfold agree. simpl. repeat split; congruence.
Qed.

Ltac obl_step :=
  lazymatch goal with
  | |- oblivious (try_except _ _) => apply oblivious_try_except
  | |- oblivious (with_connection _) => apply oblivious_with_connection
  | |- oblivious (bind (get_data _) _) =>
      apply oblivious_bind_blind; [apply blind_get_data|]
  | |- oblivious (bind _ _) => apply oblivious_bind
  | |- oblivious (execute _ _ _) => apply oblivious_execute
  | |- oblivious commit => apply oblivious_commit
  | |- oblivious (ret _) => apply oblivious_ret
  | |- oblivious (raise _) => apply oblivious_raise
  | |- oblivious (transport _) => apply oblivious_transport
  | |- oblivious (clear _) => apply oblivious_clear
  | |- oblivious (match ?x with _ => _ end) => destruct x
  | |- oblivious (if ?x then _ else _) => destruct x
  | |- forall _, _ => intro
  end.

Lemma oblivious_book_car c k : oblivious (book_car c k).
Proof. unfold book_car. repeat obl_step. Qed.

Lemma oblivious_get_customer_id t : oblivious (get_customer_id t).
Proof. unfold get_customer_id. repeat obl_step. Qed.

Lemma oblivious_send_or_edit_message p : oblivious (send_or_edit_message p).
Proof. unfold send_or_edit_message. repeat obl_step. Qed.

Lemma oblivious_confirm_booking_handler u :
  oblivious (confirm_booking_handler u).
Proof.
  unfold confirm_booking_handler, answer_callback, message_answer.
  cbv zeta.
  repeat first
    [ apply oblivious_book_car
    | apply oblivious_get_customer_id
    | apply oblivious_send_or_edit_message
    | obl_step ].
Qed.

(** ** What [confirm_booking_handler] writes *)

Lemma runs_get_data now d t k (Q : gmap string value -> DB -> DB -> Prop)
  (E : DB -> Prop) :
  (forall v, Q v d t) -> runs now d t (get_data k) Q E.
Proof. intros H w Hn Hd Ht. simpl. subst. auto. Qed.

Lemma runs_clear now d t k (Q : unit -> DB -> DB -> Prop) (E : DB -> Prop) :
  Q tt d t -> runs now d t (clear k) Q E.
Proof. intros H w Hn Hd Ht. simpl. subst. auto. Qed.

(** Whatever fails, the handler leaves the database as it was or as one
    successful [book_car] at the time of the confirmation leaves it. *)
Lemma confirm_booking_handler_db now d t u :
  runs now d t (confirm_booking_handler u)
    (fun _ d' _ => d' = d \/ exists c k, d' = booked c k now d)
    (fun d' => d' = d \/ exists c k, d' = booked c k now d).
Proof.
  unfold confirm_booking_handler, get_customer_id, send_or_edit_message,
    answer_callback, message_answer.
  cbv zeta.
  repeat first
    [ runs_step
    | apply runs_get_data
    | apply runs_clear
    | eapply runs_conseq; [apply book_car_atomic| |] ];
    try solve
      [ left; reflexivity
      | contradiction
      | match goal with
        | H : context [booked] |- _ =>
            cbv beta in H; destruct H as [[-> ->]|(m & -> & ->)];
            [right; eauto|left; reflexivity]
        end ].
Qed.

(** ** The end date of a booking *)

Lemma end_date_null_bookings bid d d' :
  bookings d' = bookings d -> end_date_null bid d -> end_date_null bid d'.
Proof. intros E H b. rewrite E. apply H. Qed.

Lemma end_date_null_delete bid d b :
  end_date_null bid d -> end_date_null bid (sql_delete_booking b d).
Proof.
  intros H x Hx. simpl in Hx. apply filter_In in Hx. apply H, Hx.
Qed.

Lemma end_date_null_pending bid d b :
  end_date_null bid d -> end_date_null bid (sql_clear_pending b d).
Proof.
  intros H x Hx. simpl in Hx. apply in_map_iff in Hx.
  destruct Hx as (y & <- & Hy). specialize (H y Hy).
  destruct (b_id y =? b); exact H.
Qed.

Lemma end_date_null_close bid d b now :
  b <> bid -> end_date_null bid d ->
  end_date_null bid (snd (sql_close_booking b now d)).
Proof.
  intros Hne H x Hx. simpl in Hx. apply in_map_iff in Hx.
  destruct Hx as (y & <- & Hy). specialize (H y Hy).
  destruct (b_id y =? b) eqn:E; [|exact H].
  apply Z.eqb_eq in E. simpl. intros Hid. congruence.
Qed.

Lemma end_date_null_insert bid d c k now :
  fetchone (sql_active_bookings_of c d) = None ->
  end_date_null bid d ->
  end_date_null bid (snd (sql_insert_booking c k now d)).
Proof.
  intros _ H x Hx. simpl in Hx. apply in_app_or in Hx.
  destruct Hx as [Hx|[<-|[]]]; [apply H, Hx|reflexivity].
Qed.

(** C10.  Whatever the session holds when the customer confirms, and
    whatever fails on the way, every booking row that
    [confirm_booking_handler] adds has the time of the confirmation as its
    start_date, no end_date, and active=true; the database it leaves is
    the same for every other content of the session store; and the
    end_date of a booking stays NULL through every sequence of engine
    operations that does not return that booking. *)
Theorem wizard_dates_not_persisted (w : World) (u : Update)
  (fsm' : gmap (Z * Z) Session) (booking_id : Z) (os : list (Z * op)) :
  let w' := snd (confirm_booking_handler u w) in
  (forall b, In b (bookings (w_db w')) ->
             In b (bookings (w_db w)) \/
             (b_start_date b = w_now w /\ b_end_date b = None /\
              b_active b = true)) /\
  w_db (snd (confirm_booking_handler u (set_fsm fsm' w))) = w_db w' /\
  (Forall (fun to => allowed (fun b => b <> booking_id) (snd to)) os ->
   end_date_null booking_id (w_db w) ->
   end_date_null booking_id (w_db (snd (run_ops os w)))).
Proof.
  split; [|split].
  - pose proof (confirm_booking_handler_db (w_now w) (w_db w) (w_txn w) u w
                  eq_refl eq_refl eq_refl) as H.
    assert (Hd : w_db (snd (confirm_booking_handler u w)) = w_db w \/
                 exists c k,
                   w_db (snd (confirm_booking_handler u w)) =
                   booked c k (w_now w) (w_db w)).
    { destruct (confirm_booking_handler u w) as [[a|e] w1]; simpl;
        destruct H as [_ H]; exact H. }
    intros b Hb. destruct Hd as [Hd|(c & k & Hd)]; rewrite Hd in Hb.
    + left. exact Hb.
    + simpl in Hb. apply in_app_or in Hb.
      destruct Hb as [Hb|[<-|[]]]; [left; exact Hb|right].
      repeat split.
  - assert (Ha : agree (set_fsm fsm' w) w).
    { unfold agree. simpl. repeat split. }
    destruct (oblivious_confirm_booking_handler u _ _ Ha) as [_ (Hd & _)].
    exact Hd.
  - intros Hall H0.
    apply (run_ops_keeps (end_date_null booking_id)
             (fun b => b <> booking_id)
             (end_date_null_bookings booking_id)
             (end_date_null_delete booking_id)
             (end_date_null_pending booking_id)
             (end_date_null_close booking_id)
             (end_date_null_insert booking_id)); assumption.
Qed.

Lemma wizard_dates_not_persisted_witness :
  let k := (100, 100) in
  let w0 :=
    set_fsm (<[k := mkSession (Some booking_select_start_date)
                      (<["car_id" := VInt 5]> ∅)]> ∅) demo_world in
  let step h data w := snd (h (mkUpdate 100 100 data false None) w) in
  let w4 :=
    step end_time_handler "end_time_18:30"
      (step end_date_handler "end_date_2026-01-03"
         (step start_time_handler "start_time_09:00"
            (step start_date_handler "start_date_2026-01-02" w0))) in
  let w5 := step confirm_booking_handler "confirm_booking_5" w4 in
  let os := [(2000, ApproveBooking 1); (3000, BookCar 2 7)] in
  s_data (session_of k w4) !! "start_datetime" =
    Some (VStr "2026-01-02 09:00") /\
  s_data (session_of k w4) !! "end_datetime" =
    Some (VStr "2026-01-03 18:30") /\
  bookings (w_db w5) = [mkBooking 1 1 5 1000 None true false] /\
  end_date_null 1 (w_db (snd (run_ops os w5))).
Proof.
  intros k w0 step w4 w5 os.
  destruct (wizard_dates_not_persisted w5 (mkUpdate 100 100 "" false None)
              ∅ 1 os) as (_ & _ & H).
  split; [vm_compute; reflexivity|]. split; [vm_compute; reflexivity|].
  assert (B : bookings (w_db w5) = [mkBooking 1 1 5 1000 None true false])
    by (vm_compute; reflexivity).
  split; [exact B|].
  apply H.
  - repeat constructor; simpl; discriminate.
  - intros b Hb _. rewrite B in Hb. destruct Hb as [<-|[]]. reflexivity.
Defined.

(** * Further properties of the operations *)

(** ** Bookings and returns in sequence *)

(** A customer who has just booked a car cannot book another one, whatever
    car it is: the second [book_car] fails with AlreadyBooked and writes
    nothing. *)
Theorem second_booking_refused (w w1 : World)
  (customer_id car_id car_id' t bid : Z) :
  backend_up w ->
  book_car customer_id car_id w = (Ret (ok_id bid), w1) ->
  fst (book_car customer_id car_id' (set_now t w1)) =
    Ret (failure AlreadyBooked) /\
  w_db (snd (book_car customer_id car_id' (set_now t w1))) = w_db w1.
Proof.
  intros Hup Hbook.
  destruct (book_car_up w customer_id car_id Hup) as (H1 & H2 & H3).
  rewrite Hbook in H1, H2, H3. simpl in H1, H2, H3.
  assert (Hup1 : backend_up (set_now t w1)) by exact H3.
  destruct (book_car_up (set_now t w1) customer_id car_id' Hup1)
    as (B1 & B2 & _).
  simpl in B1, B2. rewrite B1, B2. clear B1 B2 Hbook Hup1 H3.
  revert H1 H2. unfold spec_book_car at 1 2.
  destruct (existsb _ (bookings (w_db w))); [discriminate|].
  destruct (find_car car_id (w_db w)) as [c|]; [|discriminate].
  destruct (negb (c_available c)); [discriminate|]. simpl.
  intros _ Hdb. unfold spec_book_car. rewrite Hdb. simpl.
  rewrite existsb_app. simpl. rewrite Z.eqb_refl. simpl.
  rewrite orb_true_r. split; reflexivity.
Qed.

Lemma second_booking_refused_witness :
  let w1 := snd (book_car 1 5 demo_world) in
  fst (book_car 1 7 (set_now 1500 w1)) = Ret (failure AlreadyBooked).
Proof.
  intros w1.
  assert (B : book_car 1 5 demo_world = (Ret (ok_id 1), w1)).
  { unfold w1. destruct (book_car 1 5 demo_world) as [o w'] eqn:E.
    simpl. f_equal.
    change o with (fst (o, w')). rewrite <- E. vm_compute. reflexivity. }
  exact (proj1 (second_booking_refused demo_world w1 1 5 7 1500 1
                  eq_refl B)).
Defined.

Lemma find_closed booking_id now bs :
  List.find (fun b => (b_id b =? booking_id) && b_active b)
    (List.map
       (fun x => if b_id x =? booking_id then close_booking now x else x)
       bs) = None.
Proof.
  induction bs as [|b bs IH]; simpl; [reflexivity|].
  destruct (b_id b =? booking_id) eqn:E; simpl; rewrite E; simpl;
    exact IH.
Qed.

(** A booking can be returned once: after a successful [return_car] a
    second one for the same booking fails with BookingNotFound and
    writes nothing, so the car is not touched again. *)
Theorem second_return_refused (w : World) (booking_id t : Z) :
  backend_up w ->
  fst (return_car booking_id w) = Ret (ok_msg "Car returned successfully.") ->
  let w1 := set_now t (snd (return_car booking_id w)) in
  fst (return_car booking_id w1) = Ret (failure BookingNotFound) /\
  w_db (snd (return_car booking_id w1)) = w_db w1.
Proof.
  intros Hup Hok w1.
  destruct (return_car_up w booking_id Hup) as (H1 & H2 & H3).
  assert (Hup1 : backend_up w1) by exact H3.
  destruct (return_car_up w1 booking_id Hup1) as (R1 & R2 & _).
  rewrite R1, R2. subst w1. simpl. rewrite H2.
  clear R1 R2 Hup1 H3 H2. rewrite H1 in Hok.
  unfold spec_return_car in Hok |- *.
  destruct (List.find _ (bookings (w_db w))) as [b|]; [|discriminate].
  simpl. rewrite find_closed. split; reflexivity.
Qed.

Lemma second_return_refused_witness :
  let w := world_of demo_db_active 1000 in
  fst (return_car 1 w) = Ret (ok_msg "Car returned successfully.") /\
  fst (return_car 1 (set_now 2000 (snd (return_car 1 w)))) =
    Ret (failure BookingNotFound).
Proof.
  intros w.
  assert (R : fst (return_car 1 w) = Ret (ok_msg "Car returned successfully."))
    by (vm_compute; reflexivity).
  split; [exact R|].
  exact (proj1 (second_return_refused w 1 2000 eq_refl R)).
Defined.

(** ** Registration *)

Lemma register_customer_body_returns telegram_id name w :
  exists r, fst (register_customer_body telegram_id name w) = Ret r.
Proof.
  unfold register_customer_body, try_except.
  destruct (with_connection _ w) as [[a|e] w1]; simpl; eauto.
Qed.

Lemma register_customer_unfolds telegram_id name w :
  register_customer telegram_id name w =
    register_customer_body telegram_id name w.
Proof.
  unfold register_customer, retry_on_db_error. simpl.
  destruct (register_customer_body_returns telegram_id name w) as [r Hr].
  destruct (register_customer_body telegram_id name w) as [[a|e] w1];
    [reflexivity|discriminate].
Qed.

(** The decorator never retries [register_customer]: the body catches
    every exception itself and returns None, so the wrapper sees a result
    at the first attempt, whatever fails.  [register_customer] never
    raises and never sleeps. *)
Theorem register_customer_single_attempt (telegram_id : Z) (name : string)
  (w : World) :
  register_customer telegram_id name w =
    register_customer_body telegram_id name w /\
  exists r, fst (register_customer telegram_id name w) = Ret r.
Proof.
  split; [apply register_customer_unfolds|].
  rewrite register_customer_unfolds.
  apply register_customer_body_returns.
Qed.

Lemma filter_app_none {A} (p : A -> bool) (l : list A) (x : A) :
  List.filter p l = [] ->
  List.filter p (l ++ [x]) = if p x then [x] else [].
Proof.
  intros H. rewrite List.filter_app, H. reflexivity.
Qed.

Lemma register_customer_body_up w telegram_id name :
  backend_up w ->
  let r := register_customer_body telegram_id name w in
  let d := w_db w in
  (sql_customer_ids telegram_id d = [] ->
   fst r = Ret (Some true) /\
   w_db (snd r) = snd (sql_insert_customer telegram_id name (w_now w) d)) /\
  (sql_customer_ids telegram_id d <> [] ->
   fst r = Ret (Some false) /\ w_db (snd r) = d) /\
  backend_up (snd r).
Proof.
  intros Hup. up w. unfold register_customer_body. unfold_run.
  destruct (sql_customer_ids telegram_id d) as [|i l]; simpl;
    repeat split; intros; congruence.
Qed.

Lemma get_customer_id_up w telegram_id :
  backend_up w ->
  fst (get_customer_id telegram_id w) =
    Ret (fetchone (sql_customer_ids telegram_id (w_db w))).
Proof. intros Hup. up w. unfold get_customer_id. unfold_run. reflexivity. Qed.

Lemma sql_customer_ids_inserted telegram_id name now d :
  sql_customer_ids telegram_id d = [] ->
  sql_customer_ids telegram_id
    (snd (sql_insert_customer telegram_id name now d)) = [customers_seq d].
Proof.
  unfold sql_customer_ids. intros H. apply map_eq_nil in H. simpl.
  rewrite (filter_app_none _ _ _ H). simpl. rewrite Z.eqb_refl. reflexivity.
Qed.

(** Registration and lookup: for a Telegram id that no customer has,
    [register_customer] returns True and adds one row; [get_customer_id]
    then finds the new id; a second [register_customer] returns False and
    adds nothing. *)
Theorem register_then_lookup (w : World) (telegram_id : Z) (name name' : string) :
  backend_up w ->
  sql_customer_ids telegram_id (w_db w) = [] ->
  let r := register_customer telegram_id name w in
  fst r = Ret (Some true) /\
  customers (w_db (snd r)) =
    (customers (w_db w) ++
     [mkCustomer (customers_seq (w_db w)) telegram_id name (w_now w)])%list /\
  fst (get_customer_id telegram_id (snd r)) =
    Ret (Some (customers_seq (w_db w))) /\
  fst (register_customer telegram_id name' (snd r)) = Ret (Some false) /\
  w_db (snd (register_customer telegram_id name' (snd r))) = w_db (snd r).
Proof.
  intros Hup Hnone r. subst r.
  rewrite !register_customer_unfolds.
  destruct (register_customer_body_up w telegram_id name Hup)
    as (H1 & _ & Hup1).
  destruct (H1 Hnone) as [R1 R2]. clear H1.
  set (w1 := snd (register_customer_body telegram_id name w)) in *.
  pose proof (sql_customer_ids_inserted telegram_id name (w_now w) (w_db w)
                Hnone) as Hids.
  rewrite <- R2 in Hids.
  split; [exact R1|]. split; [rewrite R2; reflexivity|].
  split; [rewrite (get_customer_id_up w1 telegram_id Hup1), Hids;
          reflexivity|].
  destruct (register_customer_body_up w1 telegram_id name' Hup1)
    as (_ & H2 & _).
  apply H2. rewrite Hids. discriminate.
Qed.

Lemma register_then_lookup_witness :
  let r := register_customer 300 "Cy" demo_world in
  fst r = Ret (Some true) /\
  fst (get_customer_id 300 (snd r)) = Ret (Some 3) /\
  fst (register_customer 300 "Cyril" (snd r)) = Ret (Some false).
Proof.
  intros r.
  assert (N : sql_customer_ids 300 (w_db demo_world) = [])
    by (vm_compute; reflexivity).
  destruct (register_then_lookup demo_world 300 "Cy" "Cyril" eq_refl N)
    as (H1 & _ & H3 & H4 & _).
  split; [exact H1|]. split; [exact H3|exact H4].
Defined.

(** ** Dealers *)

Lemma add_dealer_up w telegram_id name :
  backend_up w ->
  let r := add_dealer telegram_id name w in
  let d := w_db w in
  (sql_dealer_ids_by_telegram telegram_id d = [] ->
   fst r = Ret (ok_id (dealers_seq d)) /\
   w_db (snd r) = snd (sql_insert_dealer telegram_id name (w_now w) d)) /\
  (sql_dealer_ids_by_telegram telegram_id d <> [] ->
   fst r = Ret (failure "Dealer with this Telegram ID already exists.") /\
   w_db (snd r) = d) /\
  backend_up (snd r).
Proof.
  intros Hup. up w. unfold add_dealer. unfold_run.
  destruct (sql_dealer_ids_by_telegram telegram_id d) as [|i l]; simpl;
    repeat split; intros; congruence.
Qed.

Lemma dealer_lookup_up w user_id :
  backend_up w ->
  fst (get_dealer_id user_id w) =
    Ret (fetchone (sql_dealer_ids_by_telegram user_id (w_db w))) /\
  fst (is_dealer user_id w) =
    Ret (match fetchone (sql_dealer_ids_by_telegram user_id (w_db w)) with
         | Some _ => true
         | None => false
         end).
Proof.
  intros Hup. up w. unfold get_dealer_id, is_dealer. unfold_run.
  split; reflexivity.
Qed.

Lemma sql_dealer_ids_inserted telegram_id name now d :
  sql_dealer_ids_by_telegram telegram_id d = [] ->
  sql_dealer_ids_by_telegram telegram_id
    (snd (sql_insert_dealer telegram_id name now d)) = [dealers_seq d].
Proof.
  unfold sql_dealer_ids_by_telegram. intros H. apply map_eq_nil in H. simpl.
  rewrite (filter_app_none _ _ _ H). simpl. rewrite Z.eqb_refl. reflexivity.
Qed.

(** Adding a dealer and looking the dealer up: for a Telegram id that no
    dealer has, [add_dealer] returns the new id; [get_dealer_id] and
    [is_dealer] then find the dealer; a second [add_dealer] for the same
    Telegram id is refused and adds nothing. *)
Theorem add_dealer_then_lookup (w : World) (telegram_id : Z)
  (name name' : string) :
  backend_up w ->
  sql_dealer_ids_by_telegram telegram_id (w_db w) = [] ->
  let r := add_dealer telegram_id name w in
  fst r = Ret (ok_id (dealers_seq (w_db w))) /\
  fst (get_dealer_id telegram_id (snd r)) =
    Ret (Some (dealers_seq (w_db w))) /\
  fst (is_dealer telegram_id (snd r)) = Ret true /\
  fst (add_dealer telegram_id name' (snd r)) =
    Ret (failure "Dealer with this Telegram ID already exists.") /\
  w_db (snd (add_dealer telegram_id name' (snd r))) = w_db (snd r).
Proof.
  intros Hup Hnone r. subst r.
  destruct (add_dealer_up w telegram_id name Hup) as (H1 & _ & Hup1).
  destruct (H1 Hnone) as [R1 R2]. clear H1.
  set (w1 := snd (add_dealer telegram_id name w)) in *.
  pose proof (sql_dealer_ids_inserted telegram_id name (w_now w) (w_db w)
                Hnone) as Hids.
  rewrite <- R2 in Hids.
  destruct (dealer_lookup_up w1 telegram_id Hup1) as [L1 L2].
  split; [exact R1|].
  split; [rewrite L1, Hids; reflexivity|].
  split; [rewrite L2, Hids; reflexivity|].
  destruct (add_dealer_up w1 telegram_id name' Hup1) as (_ & H2 & _).
  apply H2. rewrite Hids. discriminate.
Qed.

Lemma add_dealer_then_lookup_witness :
  let r := add_dealer 950 "Second" demo_world in
  fst r = Ret (ok_id 2) /\
  fst (is_dealer 950 (snd r)) = Ret true /\
  fst (is_dealer 950 demo_world) = Ret false.
Proof.
  intros r.
  assert (N : sql_dealer_ids_by_telegram 950 (w_db demo_world) = [])
    by (vm_compute; reflexivity).
  destruct (add_dealer_then_lookup demo_world 950 "Second" "Again"
              eq_refl N) as (H1 & _ & H3 & _).
  split; [exact H1|]. split; [exact H3|vm_compute; reflexivity].
Defined.

(** ** Transactions are all or nothing *)


Lemma runs_all_or_nothing (m : M result) (w : World) (done : DB) :
  runs (w_now w) (w_db w) (w_txn w) m
    (fun r d' _ =>
       (exists x, r = (true, x) /\ d' = done) \/
       (exists msg, r = failure msg /\ d' = w_db w))
    (fun _ => False) ->
  all_or_nothing (fst (m w)) (w_db (snd (m w))) (w_db w) done.
Proof.
  intros H. specialize (H w eq_refl eq_refl eq_refl).
  destruct (m w) as [[r|e] w1]; simpl; destruct H as [_ H];
    [|contradiction].
  destruct H as [(x & -> & ->)|(msg & -> & ->)]; [left|right]; eauto.
Qed.

Ltac nothing_done := right; eexists; split; reflexivity.
Ltac all_done := left; eexists; split; [reflexivity|].

Lemma return_car_runs now d t booking_id :
  runs now d t (return_car booking_id)
    (fun r d' _ =>
       (exists x, r = (true, x) /\
                  d' = snd (spec_return_car booking_id now d)) \/
       (exists msg, r = failure msg /\ d' = d))
    (fun _ => False).
Proof.
  unfold return_car. repeat runs_step; simpl; try nothing_done.
  all_done. unfold spec_return_car.
  match goal with H : fetchone _ = Some _ |- _ => revert H end.
  unfold sql_car_of_active_booking. simpl. rewrite fetchone_map_filter.
  destruct (List.find _ (bookings d)) as [b|]; simpl; [|discriminate].
  intros [= <-]. reflexivity.
Qed.

Lemma approve_booking_runs now d t booking_id :
  runs now d t (approve_booking booking_id)
    (fun r d' _ =>
       (exists x, r = (true, x) /\
                  d' = snd (spec_approve_booking booking_id d)) \/
       (exists msg, r = failure msg /\ d' = d))
    (fun _ => False).
Proof.
  unfold approve_booking, database_error.
  repeat runs_step; simpl; try nothing_done.
  all_done. unfold spec_approve_booking.
  match goal with H : fetchone _ = Some _ |- _ => revert H end.
  unfold sql_pending_booking. simpl. rewrite fetchone_map_filter.
  destruct (List.find _ (bookings d)) as [b|]; simpl; [|discriminate].
  intros [= <- <-]. reflexivity.
Qed.

Lemma reject_booking_runs now d t booking_id :
  runs now d t (reject_booking booking_id)
    (fun r d' _ =>
       (exists x, r = (true, x) /\
                  d' = snd (spec_reject_booking booking_id d)) \/
       (exists msg, r = failure msg /\ d' = d))
    (fun _ => False).
Proof.
  unfold reject_booking, database_error.
  repeat runs_step; simpl; try nothing_done.
  all_done. unfold spec_reject_booking.
  match goal with H : fetchone _ = Some _ |- _ => revert H end.
  unfold sql_pending_booking. simpl. rewrite fetchone_map_filter.
  destruct (List.find _ (bookings d)) as [b|]; simpl; [|discriminate].
  intros _. reflexivity.
Qed.

Lemma admin_delete_booking_runs now d t booking_id :
  runs now d t (admin_delete_booking booking_id)
    (fun r d' _ =>
       (exists x, r = (true, x) /\
                  d' = snd (spec_admin_delete_booking booking_id d)) \/
       (exists msg, r = failure msg /\ d' = d))
    (fun _ => False).
Proof.
  unfold admin_delete_booking, database_error.
  repeat runs_step; simpl; try nothing_done;
    all_done; unfold spec_admin_delete_booking;
    match goal with H : fetchone _ = Some _ |- _ => revert H end;
    unfold sql_booking_car_active; simpl; rewrite fetchone_map_filter;
    (destruct (List.find _ (bookings d)) as [bk|]; simpl; [|discriminate]);
    intros [= <- Ha]; rewrite Ha; reflexivity.
Qed.

(** Whatever fails on the way (connecting, any statement, the commit),
    [return_car], [approve_booking], [reject_booking] and
    [admin_delete_booking] return a result, never raise, and have either
    done all of their writes, reporting success, or none of them,
    reporting a failure: the booking and its car are never left half
    updated. *)
Theorem booking_transitions_all_or_nothing (w : World) (booking_id : Z) :
  let d := w_db w in
  let ret := return_car booking_id w in
  let app := approve_booking booking_id w in
  let rej := reject_booking booking_id w in
  let del := admin_delete_booking booking_id w in
  all_or_nothing (fst ret) (w_db (snd ret)) d
    (snd (spec_return_car booking_id (w_now w) d)) /\
  all_or_nothing (fst app) (w_db (snd app)) d
    (snd (spec_approve_booking booking_id d)) /\
  all_or_nothing (fst rej) (w_db (snd rej)) d
    (snd (spec_reject_booking booking_id d)) /\
  all_or_nothing (fst del) (w_db (snd del)) d
    (snd (spec_admin_delete_booking booking_id d)).
Proof.
  repeat split; apply runs_all_or_nothing.
  - apply return_car_runs.
  - apply approve_booking_runs.
  - apply reject_booking_runs.
  - apply admin_delete_booking_runs.
Qed.

(** ** Cars of a dealer *)


(** [add_dealer_car] never leaves a car without its photo: whatever fails,
    it either returns the new car id, having added the car with
    available=true and one primary image row holding the photo, or returns
    a failure, having added nothing.  When the database answers, it
    succeeds. *)
Theorem add_dealer_car_all_or_nothing (w : World) (dealer_id : Z)
  (make model : option string) (year : option Z) (photo_id : string) :
  let r := add_dealer_car dealer_id make model year photo_id w in
  let d := w_db w in
  ((fst r = Ret (ok_id (cars_seq d)) /\
    w_db (snd r) = car_added dealer_id make model year photo_id d) \/
   (exists msg, fst r = Ret (failure msg) /\ w_db (snd r) = d)) /\
  (backend_up w -> fst r = Ret (ok_id (cars_seq d))).
Proof.
  split.
  - assert (H : runs (w_now w) (w_db w) (w_txn w)
                  (add_dealer_car dealer_id make model year photo_id)
                  (fun r d' _ =>
                     (r = ok_id (cars_seq (w_db w)) /\
                      d' = car_added dealer_id make model year photo_id
                             (w_db w)) \/
                     (exists msg, r = failure msg /\ d' = w_db w))
                  (fun _ => False)).
    { unfold add_dealer_car, database_error.
      repeat runs_step; simpl; try nothing_done.
      left. split; reflexivity. }
    specialize (H w eq_refl eq_refl eq_refl).
    destruct (add_dealer_car dealer_id make model year photo_id w)
      as [[r|e] w1]; simpl; destruct H as [_ H]; [|contradiction].
    destruct H as [[-> ->]|(msg & -> & ->)]; [left|right; exists msg];
      split; reflexivity.
  - intros Hup. up w. unfold add_dealer_car. unfold_run. reflexivity.
Qed.

Lemma add_dealer_car_all_or_nothing_witness :
  let r :=
    add_dealer_car 1 (Some "Toyota") (Some "Corolla") (Some 2022) "photo-8"
      demo_world in
  fst r = Ret (ok_id 8) /\
  let broken := set_backend [None; None; None; None; Some DataError]
                  demo_world in
  fst (add_dealer_car 1 (Some "Toyota") (Some "Corolla") (Some 2022) "photo-8"
         broken) = Ret (failure "Database error: invalid data") /\
  cars (w_db (snd (add_dealer_car 1 (Some "Toyota") (Some "Corolla")
                     (Some 2022) "photo-8" broken))) = cars demo_db.
Proof.
  intros r.
  destruct (add_dealer_car_all_or_nothing demo_world 1 (Some "Toyota")
              (Some "Corolla") (Some 2022) "photo-8") as [_ H].
  split; [exact (H eq_refl)|].
  intros broken. split; vm_compute; reflexivity.
Defined.

(** ** Deleting a car *)

Lemma fetchone_filter_some {A B} (f : A -> B) (p : A -> bool) (l : list A) y :
  fetchone (List.map f (List.filter p l)) = Some y ->
  exists x, In x l /\ p x = true.
Proof.
  rewrite fetchone_map_filter.
  destruct (List.find p l) as [x|] eqn:E; [|discriminate].
  intros _. apply find_some in E. eauto.
Qed.

Lemma fetchone_filter_none {A B} (f : A -> B) (p : A -> bool) (l : list A) :
  fetchone (List.map f (List.filter p l)) = None ->
  forall x, In x l -> p x = false.
Proof.
  rewrite fetchone_map_filter.
  destruct (List.find p l) as [x|] eqn:E; [discriminate|].
  intros _. exact (find_none _ _ E).
Qed.

Lemma delete_dealer_car_runs now d t dealer_id car_id :
  runs now d t (delete_dealer_car dealer_id car_id)
    (fun r d' _ =>
       (r = ok_msg "Car deleted successfully." /\
        fetchone (sql_car_of_dealer car_id dealer_id d) <> None /\
        fetchone (sql_active_bookings_of_car car_id d) = None /\
        d' = sql_delete_car car_id (sql_delete_images_of_car car_id d)) \/
       (exists msg, r = failure msg /\ d' = d))
    (fun _ => False).
Proof.
  unfold delete_dealer_car, database_error.
  repeat runs_step; simpl; try nothing_done.
  left. simpl in *. repeat split; congruence.
Qed.

Lemma delete_dealer_car_up w dealer_id car_id :
  backend_up w ->
  fst (delete_dealer_car dealer_id car_id w) =
    Ret (match fetchone (sql_car_of_dealer car_id dealer_id (w_db w)) with
         | None => failure "Car not found or doesn't belong to you."
         | Some _ =>
             match fetchone (sql_active_bookings_of_car car_id (w_db w)) with
             | Some _ =>
                 failure "Cannot delete a car that is currently booked."
             | None => ok_msg "Car deleted successfully."
             end
         end).
Proof.
  intros Hup. up w. unfold delete_dealer_car. unfold_run.
  unfold sql_car_of_dealer, sql_active_bookings_of_car.
  rewrite !fetchone_map_filter.
  destruct (List.find _ (cars d)); simpl; [|reflexivity].
  rewrite !fetchone_map_filter.
  destruct (List.find _ (bookings d)); reflexivity.
Qed.

(** [delete_dealer_car] deletes a car only for the dealer that owns it and
    only while no active booking refers to it; then the car and its images
    are gone and every other row is as it was.  In every other case,
    whatever fails, it returns a failure and nothing is changed.  When the
    database answers, the two guards are the only reasons to refuse. *)
Theorem delete_dealer_car_guarded (w : World) (dealer_id car_id : Z) :
  let r := delete_dealer_car dealer_id car_id w in
  let d := w_db w in
  let d' := w_db (snd r) in
  let owned :=
    exists c, In c (cars d) /\ c_id c = car_id /\ c_dealer_id c = dealer_id in
  let free :=
    forall b, In b (bookings d) -> b_car_id b = car_id -> b_active b = false in
  (fst r = Ret (ok_msg "Car deleted successfully.") ->
   owned /\ free /\
   (forall c, In c (cars d') <-> In c (cars d) /\ c_id c <> car_id) /\
   (forall i, In i (car_images d') <->
              In i (car_images d) /\ i_car_id i <> car_id) /\
   bookings d' = bookings d /\ dealers d' = dealers d /\
   customers d' = customers d) /\
  (fst r <> Ret (ok_msg "Car deleted successfully.") ->
   (exists msg, fst r = Ret (failure msg)) /\ d' = d) /\
  (backend_up w -> owned -> free ->
   fst r = Ret (ok_msg "Car deleted successfully.")).
Proof.
  intros r d d' owned free.
  pose proof (delete_dealer_car_runs (w_now w) (w_db w) (w_txn w) dealer_id
                car_id w eq_refl eq_refl eq_refl) as H.
  fold r in H. fold d in H.
  assert (Hcase :
            (fst r = Ret (ok_msg "Car deleted successfully.") /\
             fetchone (sql_car_of_dealer car_id dealer_id d) <> None /\
             fetchone (sql_active_bookings_of_car car_id d) = None /\
             d' = sql_delete_car car_id (sql_delete_images_of_car car_id d)) \/
            (exists msg, fst r = Ret (failure msg) /\ d' = d)).
  { unfold d'. destruct r as [[x|e] w1]; simpl in *; destruct H as [_ H];
      [|contradiction].
    destruct H as [(-> & H)|(msg & -> & H)]; [left|right; exists msg];
      split; auto. }
  clear H. split; [|split].
  - intros Hok. destruct Hcase as [(_ & Hc & Hb & Hd)|(msg & Hf & _)];
      [|rewrite Hf in Hok; discriminate].
    split; [|split; [|rewrite Hd; simpl;
                      split; [|split; [|repeat split; reflexivity]]]].
    + destruct (fetchone (sql_car_of_dealer car_id dealer_id d)) as [y|] eqn:E;
        [|congruence].
      apply fetchone_filter_some in E. destruct E as (c & Hin & Hp).
      apply andb_true_iff in Hp. destruct Hp as [H1 H2].
      exists c. split; [exact Hin|]. split; lia.
    + intros b Hin Hcar.
      pose proof (fetchone_filter_none _ _ _ Hb b Hin) as Hp. simpl in Hp.
      rewrite Hcar, Z.eqb_refl in Hp. exact Hp.
    + intros c. rewrite filter_In, negb_true_iff, Z.eqb_neq. reflexivity.
    + intros i. rewrite filter_In, negb_true_iff, Z.eqb_neq. reflexivity.
  - intros Hno. destruct Hcase as [(Hok & _)|(msg & Hf & Hd)];
      [contradiction|]. split; [exists msg; exact Hf|exact Hd].
  - intros Hup (c & Hin & Hid & Hdl) Hfree.
    unfold r. rewrite (delete_dealer_car_up w dealer_id car_id Hup).
    unfold sql_car_of_dealer, sql_active_bookings_of_car.
    rewrite !fetchone_map_filter.
    destruct (List.find _ (cars (w_db w))) as [x|] eqn:E; simpl.
    + destruct (List.find _ (bookings (w_db w))) as [b|] eqn:E';
        [|reflexivity].
      apply find_some in E'. destruct E' as [Hb Hp].
      apply andb_true_iff in Hp. destruct Hp as [H1 H2].
      rewrite (Hfree b Hb) in H2; [discriminate|lia].
    + pose proof (find_none _ _ E c Hin) as Hp. simpl in Hp.
      rewrite Hid, Hdl, !Z.eqb_refl in Hp. discriminate.
Qed.

Lemma delete_dealer_car_guarded_witness :
  fst (delete_dealer_car 1 7 (world_of demo_db_active 1000)) =
    Ret (ok_msg "Car deleted successfully.") /\
  List.map c_id
    (cars (w_db (snd (delete_dealer_car 1 7 (world_of demo_db_active 1000)))))
    = [5] /\
  fst (delete_dealer_car 1 5 (world_of demo_db_active 1000)) =
    Ret (failure "Cannot delete a car that is currently booked.") /\
  fst (delete_dealer_car 2 7 (world_of demo_db_active 1000)) =
    Ret (failure "Car not found or doesn't belong to you.").
Proof.
  destruct (delete_dealer_car_guarded (world_of demo_db_active 1000) 1 7)
    as (_ & _ & H).
  split.
  - apply H; [reflexivity| |].
    + exists (mkCar 7 1 (Some "Honda") (Some "Civic") (Some 2021) true).
      simpl. auto.
    + simpl. intros b [<-|[]]. simpl. discriminate.
  - repeat split; vm_compute; reflexivity.
Defined.

(** ** Rules for [answers] *)

Section AnswersRules.
Context {A B : Type}.
Variables (now : Z) (d t : DB).

Lemma answers_ret (a : A) Q : Q a d t -> answers now d t (ret a) Q.
Proof. intros H w Hn Hd Ht Hup. simpl. subst. auto. Qed.

Lemma answers_bind (m : M A) (k : A -> M B) Q :
  answers now d t m (fun a d' t' => answers now d' t' (k a) Q) ->
  answers now d t (bind m k) Q.
Proof.
  intros H w Hn Hd Ht Hup. unfold bind. specialize (H w Hn Hd Ht Hup).
  destruct (m w) as [[a|e] w1]; [|exact H].
  destruct H as (Hn1 & Hup1 & H). exact (H w1 Hn1 eq_refl eq_refl Hup1).
Qed.

Lemma answers_try_except (m : M A) (h : exn -> M A) Q :
  answers now d t m Q -> answers now d t (try_except m h) Q.
Proof.
  intros H w Hn Hd Ht Hup. unfold try_except. specialize (H w Hn Hd Ht Hup).
  destruct (m w) as [[a|e] w1]; [exact H|contradiction].
Qed.

Lemma answers_conseq (m : M A) (Q Q' : A -> DB -> DB -> Prop) :
  answers now d t m Q ->
  (forall a d' t', Q a d' t' -> Q' a d' t') ->
  answers now d t m Q'.
Proof.
  intros H HQ w Hn Hd Ht Hup. specialize (H w Hn Hd Ht Hup).
  destruct (m w) as [[a|e] w1]; [|exact H].
  destruct H as (H1 & H2 & H3). auto.
Qed.

Lemma answers_execute v tb (stmt : Z -> DB -> A * DB) Q :
  Q (fst (stmt now t)) d (snd (stmt now t)) ->
  answers now d t (execute v tb stmt) Q.
Proof.
  intros HQ w Hn Hd Ht Hup. unfold execute, bind, backend.
  unfold backend_up in Hup. rewrite Hup. simpl. subst.
  destruct (stmt _ _); simpl in *. auto.
Qed.

End AnswersRules.

Section AnswersPrimitives.
Variables (now : Z) (d t : DB).

Lemma answers_commit (Q : unit -> DB -> DB -> Prop) :
  Q tt t t -> answers now d t commit Q.
Proof.
  intros HQ w Hn Hd Ht Hup. unfold commit, bind, backend.
  unfold backend_up in Hup. rewrite Hup. simpl. subst. auto.
Qed.

Lemma answers_with_connection {A} (body : M A) Q :
  answers now d d body (fun a _ t' => Q a t' t') ->
  answers now d t (with_connection body) Q.
Proof.
  intros H w Hn Hd Ht Hup.
  unfold with_connection, get_connection, bind, backend.
  unfold backend_up in Hup. rewrite Hup. simpl. rewrite Hup. simpl.
  rewrite Hup. simpl.
  match goal with
  | |- context [body ?w1] =>
      specialize (H w1 Hn Hd Hd Hup); destruct (body w1) as [[a|e] w2]
  end; simpl; exact H.
Qed.

End AnswersPrimitives.

Lemma answers_run {A} (m : M A) (Q : A -> DB -> DB -> Prop) (w : World) :
  answers (w_now w) (w_db w) (w_txn w) m Q ->
  backend_up w ->
  exists a, fst (m w) = Ret a /\ Q a (w_db (snd (m w))) (w_txn (snd (m w))) /\
            backend_up (snd (m w)) /\ w_now (snd (m w)) = w_now w.
Proof.
  intros H Hup. specialize (H w eq_refl eq_refl eq_refl Hup).
  destruct (m w) as [[a|e] w1]; [|contradiction].
  destruct H as (H1 & H2 & H3). exists a. simpl. auto.
Qed.

Ltac answers_step :=
  lazymatch goal with
  | |- answers _ _ _ (try_except _ _) _ => apply answers_try_except
  | |- answers _ _ _ (with_connection _) _ => apply answers_with_connection
  | |- answers _ _ _ (bind _ _) _ => apply answers_bind
  | |- answers _ _ _ (execute _ _ _) _ => apply answers_execute
  | |- answers _ _ _ commit _ => apply answers_commit
  | |- answers _ _ _ (ret _) _ => apply answers_ret
  | |- answers _ _ _ (match ?x with _ => _ end) _ => destruct x eqn:?
  | |- answers _ _ _ (if ?x then _ else _) _ => destruct x eqn:?
  | |- forall _, _ => intro
  end.

(** ** The images of a car *)

Lemma sql_image_ids_cleared car_id d :
  sql_image_ids car_id true (sql_clear_primary car_id d) = [].
Proof.
  unfold sql_image_ids, sql_clear_primary. simpl.
  induction (car_images d) as [|i l IH]; simpl; [reflexivity|].
  destruct (i_car_id i =? car_id) eqn:E; simpl; rewrite E; simpl;
    [exact IH|exact IH].
Qed.

Lemma primary_cleared car_id l :
  List.filter (fun i => (i_car_id i =? car_id) && i_is_primary i)
    (List.map
       (fun i =>
          if i_car_id i =? car_id
          then mkCarImage (i_id i) (i_car_id i) (i_image_url i) false
          else i) l) = [].
Proof.
  induction l as [|i l IH]; simpl; [reflexivity|].
  destruct (i_car_id i =? car_id) eqn:E; simpl; rewrite E; simpl; exact IH.
Qed.

Lemma others_cleared car_id l :
  List.filter (fun i => negb (i_car_id i =? car_id))
    (List.map
       (fun i =>
          if i_car_id i =? car_id
          then mkCarImage (i_id i) (i_car_id i) (i_image_url i) false
          else i) l) =
  List.filter (fun i => negb (i_car_id i =? car_id)) l.
Proof.
  induction l as [|i l IH]; simpl; [reflexivity|].
  destruct (i_car_id i =? car_id) eqn:E; simpl; rewrite E; simpl;
    [exact IH|f_equal; exact IH].
Qed.

Lemma update_car_image_primary_answers now d t car_id image_url :
  sql_car_ids car_id d <> [] ->
  answers now d t (update_car_image car_id image_url true)
    (fun r d' _ =>
       r = ok_msg ("Added new image #" +:+ str_of_Z (car_images_seq d)) /\
       d' = snd (sql_insert_image car_id image_url true now
                   (sql_clear_primary car_id d))).
Proof.
  intros Hcar. unfold update_car_image.
  repeat answers_step; simpl in *;
    try solve [ split; reflexivity
              | congruence
              | match goal with
                | H : fetchone (sql_car_ids _ _) = None |- _ =>
                    destruct (sql_car_ids car_id d); [congruence|discriminate]
                | H : fetchone (sql_image_ids _ true (sql_clear_primary _ _))
                      = Some _ |- _ =>
                    rewrite sql_image_ids_cleared in H; discriminate
                end ].
Qed.

(** With [is_primary=True], [update_car_image] never updates a row: the
    UPDATE that precedes the lookup has just cleared every primary flag of
    the car, so the lookup finds nothing and a new row is inserted.  For an
    existing car, when the database answers, the result is "Added new image"
    with the next image id; afterwards the car has exactly one primary
    image, the new one, with the given file id; the table has one row
    more; and the images of the other cars are as they were. *)
Theorem update_car_image_primary (w : World) (car_id : Z)
  (image_url : string) :
  backend_up w ->
  sql_car_ids car_id (w_db w) <> [] ->
  let r := update_car_image car_id image_url true w in
  let d := w_db w in
  let d' := w_db (snd r) in
  fst r = Ret (ok_msg ("Added new image #" +:+ str_of_Z (car_images_seq d))) /\
  List.filter (fun i => (i_car_id i =? car_id) && i_is_primary i)
    (car_images d') = [mkCarImage (car_images_seq d) car_id image_url true] /\
  length (car_images d') = S (length (car_images d)) /\
  List.filter (fun i => negb (i_car_id i =? car_id)) (car_images d') =
  List.filter (fun i => negb (i_car_id i =? car_id)) (car_images d) /\
  cars d' = cars d.
Proof.
  intros Hup Hcar r d d'.
  destruct (answers_run _ _ w
              (update_car_image_primary_answers (w_now w) (w_db w) (w_txn w)
                 car_id image_url Hcar) Hup) as (a & Ha & (-> & Hd) & _).
  fold r in Ha, Hd. fold d' in Hd. fold d in Hd |- *.
  split; [exact Ha|]. rewrite Hd. simpl.
  rewrite !List.filter_app, primary_cleared, others_cleared. simpl.
  rewrite Z.eqb_refl. simpl.
  split; [reflexivity|]. split; [|split; [|reflexivity]].
  - rewrite List.length_app, List.length_map. simpl. lia.
  - rewrite app_nil_r. reflexivity.
Qed.

Lemma update_car_image_primary_witness :
  let r := update_car_image 5 "new-file" true demo_world in
  fst r = Ret (ok_msg "Added new image #3") /\
  car_images (w_db (snd r)) =
    [mkCarImage 1 5 "photo-5" false; mkCarImage 2 7 "photo-7" true;
     mkCarImage 3 5 "new-file" true].
Proof.
  intros r.
  assert (C : sql_car_ids 5 (w_db demo_world) <> [])
    by (vm_compute; discriminate).
  destruct (update_car_image_primary demo_world 5 "new-file" eq_refl C)
    as (H & _).
  split; [exact H|vm_compute; reflexivity].
Defined.

Lemma get_car_details_answers now d t car_id :
  answers now d t (get_car_details car_id)
    (fun r d' _ =>
       r = match fetchone (sql_car_with_dealer car_id d) with
           | None => None
           | Some car => Some (car, sql_images_of_car car_id d)
           end /\ d' = d).
Proof.
  unfold get_car_details.
  repeat answers_step; simpl in *;
    match goal with H : fetchone _ = _ |- _ => rewrite H end;
    split; reflexivity.
Qed.

Lemma refresh_car_image_answers now d t car_id new_file_id :
  sql_car_ids car_id d <> [] ->
  answers now d t (refresh_car_image car_id new_file_id)
    (fun r d' _ =>
       fst r = true /\
       d' = match fetchone (sql_image_ids car_id true d) with
            | Some image_id => sql_update_image_url image_id new_file_id d
            | None => snd (sql_insert_image car_id new_file_id true now d)
            end).
Proof.
  intros Hcar. unfold refresh_car_image.
  repeat answers_step; simpl in *;
    try match goal with
        | H : fetchone (sql_car_ids _ _) = None |- _ =>
            destruct (sql_car_ids car_id d); [congruence|discriminate]
        end;
    match goal with H : fetchone (sql_image_ids _ _ _) = _ |- _ =>
      rewrite H end;
    split; reflexivity.
Qed.

Lemma car_with_dealer_listed car_id d :
  sql_car_with_dealer (Some car_id) d <> [] -> sql_car_ids car_id d <> [].
Proof.
  unfold sql_car_with_dealer, sql_car_ids.
  induction (cars d) as [|c l IH]; simpl; [congruence|].
  destruct (c_id c =? car_id); simpl; [discriminate|exact IH].
Qed.

Lemma refreshed_image_listed car_id new_file_id now d :
  In (new_file_id, true)
    (sql_images_of_car (Some car_id)
       match fetchone (sql_image_ids car_id true d) with
       | Some image_id => sql_update_image_url image_id new_file_id d
       | None => snd (sql_insert_image car_id new_file_id true now d)
       end).
Proof.
  unfold sql_image_ids. rewrite fetchone_map_filter.
  destruct (List.find _ (car_images d)) as [i|] eqn:E; simpl.
  - apply find_some in E. destruct E as [Hin Hp].
    apply andb_true_iff in Hp. destruct Hp as [Hc Hpr].
    apply eqb_prop in Hpr.
    apply in_map_iff.
    exists (mkCarImage (i_id i) (i_car_id i) new_file_id (i_is_primary i)).
    split; [simpl; rewrite Hpr; reflexivity|].
    apply filter_In. split; [|exact Hc].
    apply in_map_iff. exists i. rewrite Z.eqb_refl. auto.
  - apply in_map_iff. exists (mkCarImage (car_images_seq d) car_id new_file_id true).
    split; [reflexivity|]. apply filter_In. simpl. rewrite Z.eqb_refl.
    split; [apply in_or_app; right; left; reflexivity|reflexivity].
Qed.

(** A refreshed photo is the one shown: if [get_car_details] finds a car,
    then, when the database answers, [refresh_car_image] for that car
    succeeds, and [get_car_details] afterwards finds the same car with the
    new file id among its images, marked primary.  No car row changes. *)
Theorem refresh_then_details (w : World) (car_id : Z) (new_file_id : string)
  (car : Car * Dealer) (images0 : list (string * bool)) :
  backend_up w ->
  fst (get_car_details (Some car_id) w) = Ret (Some (car, images0)) ->
  let r := refresh_car_image car_id new_file_id w in
  (exists x, fst r = Ret (true, x)) /\
  cars (w_db (snd r)) = cars (w_db w) /\
  exists images,
    fst (get_car_details (Some car_id) (snd r)) = Ret (Some (car, images)) /\
    In (new_file_id, true) images.
Proof.
  intros Hup Hdet r.
  destruct (answers_run _ _ w
              (get_car_details_answers (w_now w) (w_db w) (w_txn w)
                 (Some car_id)) Hup) as (a & Ha & (-> & _) & _).
  rewrite Ha in Hdet. clear Ha.
  destruct (fetchone (sql_car_with_dealer (Some car_id) (w_db w)))
    as [car'|] eqn:Hcar; [|discriminate].
  injection Hdet as -> _.
  assert (Hids : sql_car_ids car_id (w_db w) <> []).
  { apply car_with_dealer_listed. intros E. rewrite E in Hcar. discriminate. }
  destruct (answers_run _ _ w
              (refresh_car_image_answers (w_now w) (w_db w) (w_txn w)
                 car_id new_file_id Hids) Hup)
    as ([ok x] & Hr & (Hok & Hd) & Hup1 & _).
  fold r in Hr, Hd, Hup1. simpl in Hok. subst ok.
  split; [exists x; exact Hr|].
  assert (Hcars : cars (w_db (snd r)) = cars (w_db w) /\
                  dealers (w_db (snd r)) = dealers (w_db w)).
  { rewrite Hd. destruct (fetchone (sql_image_ids _ _ _)); split; reflexivity. }
  split; [exact (proj1 Hcars)|].
  destruct (answers_run _ _ (snd r)
              (get_car_details_answers (w_now (snd r)) (w_db (snd r))
                 (w_txn (snd r)) (Some car_id)) Hup1)
    as (a & Ha & (-> & _) & _).
  exists (sql_images_of_car (Some car_id) (w_db (snd r))).
  split.
  - rewrite Ha.
    replace (sql_car_with_dealer (Some car_id) (w_db (snd r)))
      with (sql_car_with_dealer (Some car_id) (w_db w)).
    + rewrite Hcar. reflexivity.
    + unfold sql_car_with_dealer. destruct Hcars as [-> ->]. reflexivity.
  - rewrite Hd. apply refreshed_image_listed.
Qed.

Lemma refresh_then_details_witness :
  let r := refresh_car_image 7 "fresh-7" demo_world in
  exists images,
    fst (get_car_details (Some 7) (snd r)) =
      Ret (Some
             ((mkCar 7 1 (Some "Honda") (Some "Civic") (Some 2021) true,
               mkDealer 1 900 "Dealer"), images)) /\
    In ("fresh-7", true) images.
Proof.
  intros r.
  assert (D : fst (get_car_details (Some 7) demo_world) =
              Ret (Some
                     ((mkCar 7 1 (Some "Honda") (Some "Civic") (Some 2021)
                         true, mkDealer 1 900 "Dealer"),
                      [("photo-7", true)])))
    by (vm_compute; reflexivity).
  exact (proj2 (proj2 (refresh_then_details demo_world 7 "fresh-7" _ _
                         eq_refl D))).
Defined.

(** * The handlers *)

(** ** [send_or_edit_message] *)

Lemma send_or_edit_message_run has_photo w :
  exists w',
    send_or_edit_message has_photo w = (Ret tt, w') /\
    w_db w' = w_db w /\ w_fsm w' = w_fsm w /\
    w_txn w' = w_txn w /\ w_backend w' = w_backend w /\
    (length (w_trace w) < length (w_trace w') <= length (w_trace w) + 3)%nat.
Proof.
  destruct w as [d t now be tp fsm tr].
  unfold send_or_edit_message, try_except, bind, transport, ret, raise.
  destruct has_photo;
    [destruct tp as [|[e0|] tp]|destruct tp as [|[[]|] tp]]; simpl;
    try (destruct tp as [|[e1|] [|[e2|] tp]]; simpl);
    eexists; (split; [reflexivity|]); simpl;
    rewrite ?List.length_app; simpl; repeat split; lia.
Qed.

(** [send_or_edit_message] always returns: whatever the chat API raises,
    and however often, the helper catches it.  It calls the API once,
    twice or three times, and touches neither the database nor the
    sessions. *)
Theorem send_or_edit_message_returns (has_photo : bool) (w : World) :
  let r := send_or_edit_message has_photo w in
  fst r = Ret tt /\
  w_db (snd r) = w_db w /\ w_txn (snd r) = w_txn w /\
  w_fsm (snd r) = w_fsm w /\ w_backend (snd r) = w_backend w /\
  (length (w_trace w) < length (w_trace (snd r)) <=
   length (w_trace w) + 3)%nat.
Proof.
  destruct (send_or_edit_message_run has_photo w)
    as (w' & -> & H1 & H2 & H3 & H4 & H5).
  simpl. repeat split; try assumption; apply H5.
Qed.

(** ** Leaving a conversation *)

(** [back_to_menu_handler] always returns and always clears the session of
    the conversation, whatever the chat API raises; the sessions of the
    other conversations and the database are as they were. *)
Theorem back_to_menu_always_clears (u : Update) (w : World) :
  let r := back_to_menu_handler u w in
  fst r = Ret tt /\
  w_fsm (snd r) = <[key_of u := empty_session]> (w_fsm w) /\
  w_db (snd r) = w_db w.
Proof.
  unfold back_to_menu_handler, try_except, bind, get_data. simpl.
  destruct (send_or_edit_message_run (u_has_photo u) w)
    as (w' & -> & Hd & Hf & _).
  unfold clear. simpl. rewrite Hf, Hd. repeat split.
Qed.

(** [cancel_handler] clears the session exactly when a state is set: with
    no state the data of the session are kept.  This holds whatever the
    chat API raises, also when the handler itself raises; the database is
    never touched. *)
Theorem cancel_clears_iff_state (u : Update) (w : World) :
  let r := cancel_handler u w in
  w_fsm (snd r) =
    match s_state (session_of (key_of u) w) with
    | Some _ => <[key_of u := empty_session]> (w_fsm w)
    | None => w_fsm w
    end /\
  s_state (session_of (key_of u) (snd r)) = None /\
  w_db (snd r) = w_db w.
Proof.
  destruct w as [d t now be tp fsm tr].
  unfold cancel_handler, try_except, bind, get_state, message_answer,
    transport, clear, ret. simpl.
  destruct (s_state (session_of (key_of u) _)) eqn:E;
    destruct tp as [|[e|] [|[e'|] tp]]; simpl;
    unfold session_of in *; simpl in *;
    rewrite ?lookup_insert_eq, ?E; simpl; repeat split.
Qed.

(** ** The photo handlers of the dealer *)

Lemma bind_run {A B} (m : M A) (f : A -> M B) (w : World) :
  bind m f w =
  match m w with
  | (Ret a, w1) => f a w1
  | (Raise e, w1) => (Raise e, w1)
  end.
Proof. reflexivity. Qed.

Lemma returns_cleared_bind {A B} k (m : M A) (f : A -> M B) :
  (forall a, returns_cleared k (f a)) -> returns_cleared k (bind m f).
Proof.
  intros H w. unfold bind. destruct (m w) as [[a|e] w1]; [apply H|exact I].
Qed.

Lemma returns_cleared_clear k : returns_cleared k (clear k).
Proof.
  intros w. unfold clear, session_of. simpl. rewrite lookup_insert_eq.
  reflexivity.
Qed.

Lemma returns_cleared_try_except {A} k (m : M A) (h : exn -> M A) :
  returns_cleared k m -> (forall e, returns_cleared k (h e)) ->
  returns_cleared k (try_except m h).
Proof.
  intros Hm Hh w. unfold try_except. specialize (Hm w).
  destruct (m w) as [[a|e] w1]; [exact Hm|apply Hh].
Qed.

Lemma returns_cleared_raise {A} k e : returns_cleared k (raise (A := A) e).
Proof. intros w. exact I. Qed.

Ltac cleared_step :=
  lazymatch goal with
  | |- returns_cleared _ (try_except _ _) => apply returns_cleared_try_except
  | |- returns_cleared _ (clear _) => apply returns_cleared_clear
  | |- returns_cleared _ (raise _) => apply returns_cleared_raise
  | |- returns_cleared _ (bind _ _) => apply returns_cleared_bind
  | |- returns_cleared _ (match ?x with _ => _ end) => destruct x
  | |- returns_cleared _ (if ?x then _ else _) => destruct x
  | |- forall _, _ => intro
  end.

Lemma is_dealer_run user_id w :
  exists b w1,
    is_dealer user_id w = (Ret b, w1) /\ w_fsm w1 = w_fsm w /\
    w_db w1 = w_db w.
Proof.
  destruct w as [d t now be tp fsm tr].
  unfold is_dealer, try_except, with_connection, get_connection, execute,
    bind, backend, query, ret.
  destruct be as [|[e0|] [|[e1|] [|[e2|] [|[e3|] be]]]]; simpl;
    eexists; eexists; (split; [reflexivity|split; reflexivity]).
Qed.

(** [process_refreshed_car_photo] clears the session on every path past
    its two guards, and on none before them.  In the admin group, when the
    [is_dealer] check returns True, a run that returns leaves the session
    cleared, whatever the database and the chat API do after the check:
    when the car id is missing from the session, when [refresh_car_image]
    succeeds, when it fails, and when something raises and the except
    branch runs.  When a guard refuses, outside the admin group or when
    the [is_dealer] check returns False, the handler leaves every session
    as it was, state and data, and the database too.  [is_dealer] returns
    False whenever one of the four round trips of the check fails, so this
    is also what a registered dealer gets then. *)
Theorem refreshed_photo_clears_session (ADMIN_GROUP_ID : Z) (u : Update)
  (w : World) :
  let r := process_refreshed_car_photo ADMIN_GROUP_ID u w in
  (is_admin_group ADMIN_GROUP_ID u = true ->
   fst (is_dealer (u_user u) w) = Ret true ->
   fst r = Ret tt ->
   session_of (key_of u) (snd r) = empty_session) /\
  (is_admin_group ADMIN_GROUP_ID u = false \/
   fst (is_dealer (u_user u) w) = Ret false ->
   w_fsm (snd r) = w_fsm w /\ w_db (snd r) = w_db w) /\
  ((exists e, In (Some e) (firstn 4 (w_backend w))) ->
   fst (is_dealer (u_user u) w) = Ret false).
Proof.
  intros r. subst r. split; [|split].
  - intros Hadm Hdealer. unfold process_refreshed_car_photo.
    rewrite Hadm. cbv iota beta delta [negb]. rewrite !bind_run.
    destruct (is_dealer (u_user u) w) as [[b|e] w1]; simpl in Hdealer;
      [|discriminate].
    injection Hdealer as ->. cbv iota beta delta [negb].
    match goal with
    | |- context [try_except ?m ?h w1] =>
        assert (H : returns_cleared (key_of u) (try_except m h))
    end.
    { repeat cleared_step. }
    specialize (H w1).
    destruct (try_except _ _ w1) as [[[]|e] w2]; simpl;
      [intros _; exact H|discriminate].
  - unfold process_refreshed_car_photo.
    destruct (is_admin_group ADMIN_GROUP_ID u) eqn:Hadm;
      cbv iota beta delta [negb].
    + intros [Hf|Hdealer]; [discriminate|]. rewrite !bind_run.
      destruct (is_dealer_run (u_user u) w) as (b & w1 & E & Hfsm & Hdb).
      rewrite E in Hdealer |- *. simpl in Hdealer.
      injection Hdealer as ->. cbv iota beta delta [negb].
      rewrite <- Hfsm, <- Hdb. unfold message_answer, transport.
      destruct (w_transport w1) as [|[e|] rest]; simpl; split; reflexivity.
    + intros _. unfold message_answer, transport.
      destruct (w_transport w) as [|[e|] rest]; simpl; split; reflexivity.
  - destruct w as [d t now be tp fsm tr]. simpl. intros (e & Hin).
    destruct be as [|[e0|] [|[e1|] [|[e2|] [|[e3|] be]]]]; simpl in Hin;
      try reflexivity; exfalso;
      repeat (destruct Hin as [Hin|Hin]; try discriminate);
      contradiction.
Qed.

Lemma refreshed_photo_clears_session_witness :
  let u := mkUpdate 77 900 "" false (Some "fresh-5") in
  let k := (77, 900) in
  let fsm :=
    <[k := mkSession (Some refreshing_car_photo)
             (<["refresh_car_id" := VInt 5]> ∅)]> ∅ in
  let w := set_transport [Some TelegramAPIError] (set_fsm fsm demo_world) in
  let down := set_backend [Some OperationalError] (set_fsm fsm demo_world) in
  session_of k (snd (process_refreshed_car_photo 77 u w)) = empty_session /\
  w_fsm (snd (process_refreshed_car_photo 77 u down)) = fsm.
Proof.
  intros u k fsm w down. split.
  - apply (proj1 (refreshed_photo_clears_session 77 u w));
      vm_compute; reflexivity.
  - destruct (refreshed_photo_clears_session 77 u down) as (_ & H2 & H3).
    assert (D : fst (is_dealer (u_user u) down) = Ret false).
    { apply H3. exists OperationalError. left. reflexivity. }
    exact (proj1 (H2 (or_intror D))).
Defined.

Lemma is_dealer_runs now d t user_id :
  runs now d t (is_dealer user_id) (fun _ d' _ => d' = d) (fun _ => False).
Proof. unfold is_dealer. repeat runs_step; reflexivity. Qed.

Lemma get_dealer_id_runs now d t user_id :
  runs now d t (get_dealer_id user_id) (fun _ d' _ => d' = d)
    (fun _ => False).
Proof. unfold get_dealer_id. repeat runs_step; reflexivity. Qed.

Lemma add_dealer_car_runs now d t dealer_id make model year photo_id :
  runs now d t (add_dealer_car dealer_id make model year photo_id)
    (fun r d' _ =>
       (fst r = true /\ d' = car_added dealer_id make model year photo_id d) \/
       (fst r = false /\ d' = d))
    (fun _ => False).
Proof.
  unfold add_dealer_car, database_error.
  repeat runs_step; simpl; auto.
Qed.

Lemma dealer_add_car_photo_handler_db now d t G u :
  runs now d t (dealer_add_car_photo_handler G u)
    (fun _ d' _ =>
       d' = d \/
       exists dealer_id make model year photo_id,
         u_photo u = Some photo_id /\
         d' = car_added dealer_id make model year photo_id d)
    (fun d' =>
       d' = d \/
       exists dealer_id make model year photo_id,
         u_photo u = Some photo_id /\
         d' = car_added dealer_id make model year photo_id d).
Proof.
  unfold dealer_add_car_photo_handler, message_answer.
  repeat first
    [ apply runs_get_data
    | apply runs_clear
    | eapply runs_conseq; [apply is_dealer_runs| |]
    | eapply runs_conseq; [apply get_dealer_id_runs| |]
    | eapply runs_conseq; [apply add_dealer_car_runs| |]
    | runs_step ];
    cbv beta in *; subst;
    try solve
      [ left; reflexivity
      | contradiction
      | match goal with
        | H : _ \/ _ |- _ =>
            destruct H as [[? ->]|[? ->]];
            repeat runs_step; cbv beta;
            solve [ left; reflexivity | right; eauto 10 ]
        end
      | right; eauto 10 ].
Qed.

(** [dealer_add_car_photo_handler] writes to the database only through one
    [add_dealer_car]: whatever fails, it leaves the database as it was or
    with one car added, whose photo is the one of the message.  Outside
    the admin group it changes neither the database nor any session, and
    for a user who is not a dealer it changes no session. *)
Theorem photo_handler_adds_one_car_at_most (ADMIN_GROUP_ID : Z) (u : Update)
  (w : World) :
  let w' := snd (dealer_add_car_photo_handler ADMIN_GROUP_ID u w) in
  (w_db w' = w_db w \/
   exists dealer_id make model year photo_id,
     u_photo u = Some photo_id /\
     w_db w' = car_added dealer_id make model year photo_id (w_db w)) /\
  (is_admin_group ADMIN_GROUP_ID u = false ->
   w_db w' = w_db w /\ w_fsm w' = w_fsm w /\ w_backend w' = w_backend w).
Proof.
  split.
  - pose proof (dealer_add_car_photo_handler_db (w_now w) (w_db w) (w_txn w)
                  ADMIN_GROUP_ID u w eq_refl eq_refl eq_refl) as H.
    destruct (dealer_add_car_photo_handler ADMIN_GROUP_ID u w)
      as [[a|e] w1]; simpl; destruct H as [_ H]; exact H.
  - intros Hadm. unfold dealer_add_car_photo_handler. rewrite Hadm. simpl.
    unfold message_answer, transport.
    destruct (w_transport w) as [|[e|] rest]; simpl; repeat split.
Qed.

Lemma photo_handler_adds_one_car_at_most_witness :
  let u := mkUpdate 55 900 "" false (Some "photo-new") in
  w_db (snd (dealer_add_car_photo_handler 77 u demo_world)) =
    w_db demo_world.
Proof.
  intros u.
  exact (proj1 (proj2 (photo_handler_adds_one_car_at_most 77 u demo_world)
                  eq_refl)).
Defined.
